(** * weatherAPI: the weather client and the hourly normalizer of streamlit_app.py

    A shallow embedding of [fetch_weather] and [make_hourly_df] and of the
    parts of [requests] and [pandas] the two functions call, followed by the
    properties of the two functions.

    - decoded JSON is the inductive [json]; a Python [dict] is an association
      list in insertion order (column order of a frame follows it);
    - Python floats are IEEE-754 binary64 values ([spec_float]);
    - the network is an environment [Net] answering each request, and
      [fetch_weather] runs in a small monad that logs every outbound request
      and may raise;
    - a [DataFrame] is an index and a list of labelled columns; the pandas
      calls may raise, which is the error monad [result]. *)

From Stdlib Require Import String Ascii List ZArith Bool Lia PeanoNat.
From Stdlib Require Import SpecFloat.
From ExtLib Require Import Structures.Monad.
Import ListNotations.
Import MonadNotation.
Local Open Scope monad_scope.
Local Open Scope string_scope.
Local Open Scope list_scope.

(** ** Decoded JSON values *)

#[local] Set Warnings "-register-all".

Inductive json : Type :=
| JNull
| JBool (b : bool)
| JInt (n : Z)
| JFloat (x : spec_float)
| JStr (s : string)
| JList (items : list json)
| JDict (fields : list (string * json)).

(** A Python [dict] with string keys, in insertion order. *)
Definition dict := list (string * json).

Fixpoint dict_lookup (d : dict) (k : string) : option json :=
  match d with
  | [] => None
  | (k', v) :: rest => if String.eqb k' k then Some v else dict_lookup rest k
  end.

(** [d.get(k, default)] *)
Definition dict_get (d : dict) (k : string) (default : json) : json :=
  match dict_lookup d k with
  | Some v => v
  | None => default
  end.

(** [del d[k]] where present. *)
Definition dict_remove (d : dict) (k : string) : dict :=
  filter (fun kv => negb (String.eqb (fst kv) k)) d.

(** Python truth value of a decoded JSON value, as [if not hourly] tests it. *)
Definition truthy (v : json) : bool :=
  match v with
  | JNull => false
  | JBool b => b
  | JInt n => negb (Z.eqb n 0)
  | JFloat x =>
      match x with
      | S754_zero _ => false
      | _ => true
      end
  | JStr s =>
      match s with
      | EmptyString => false
      | String _ _ => true
      end
  | JList items =>
      match items with
      | [] => false
      | _ :: _ => true
      end
  | JDict fields =>
      match fields with
      | [] => false
      | _ :: _ => true
      end
  end.

(** ** binary64 constants and the coordinate domain *)

Definition b64 (m e : Z) : spec_float := binary_normalize 53 1024 m e false.

Definition valid_coordinate (latitude longitude : spec_float) : bool :=
  SFleb (b64 (-90) 0) latitude && SFleb latitude (b64 90 0)
  && SFleb (b64 (-180) 0) longitude && SFleb longitude (b64 180 0).

(** ** The part of [requests] that [fetch_weather] uses *)

Module Requests.

(** Values of the [params] dictionary. *)
Inductive pyval : Type :=
| PyFloat (x : spec_float)
| PyBool (b : bool)
| PyStr (s : string).

Inductive http_method : Type := GET | POST.

Record Request : Type := mkRequest {
  method : http_method;
  url : string;
  params : list (string * pyval);
  timeout : Z                       (* seconds *)
}.

Record Response : Type := mkResponse {
  status_code : Z;
  text : string
}.

(** What the network does with one request: it fails below HTTP, the
    timeout elapses, or a response comes back. *)
Inductive TransportFailure : Type :=
| ConnectionFailed (detail : string)
| TimedOut.

Inductive Outcome : Type :=
| Failed (f : TransportFailure)
| Replied (r : Response).

(** The exceptions of [requests.exceptions] that can reach the caller. *)
Inductive RequestException : Type :=
| ConnectionError (detail : string)
| Timeout (after : Z)
| HTTPError (response : Response)
| JSONDecodeError (response : Response).

(** The provider and the network: the answer to a request may depend on
    the requests sent before it. *)
Definition Net : Type := list Request -> Request -> Outcome.

(** Computations that send requests and may raise; the state is the log
    of requests sent so far. *)
Definition IO (A : Type) : Type :=
  list Request -> (RequestException + A) * list Request.

Definition io_ret {A} (a : A) : IO A := fun sent => (inr a, sent).

Definition raise {A} (e : RequestException) : IO A := fun sent => (inl e, sent).

Definition io_bind {A B} (c : IO A) (k : A -> IO B) : IO B :=
  fun sent =>
    match c sent with
    | (inl e, sent') => (inl e, sent')
    | (inr a, sent') => k a sent'
    end.

#[global] Instance Monad_IO : Monad IO :=
  {| ret := @io_ret; bind := @io_bind |}.

Definition exception_of (rq : Request) (f : TransportFailure) : RequestException :=
  match f with
  | ConnectionFailed detail => ConnectionError detail
  | TimedOut => Timeout (timeout rq)
  end.

(** [requests.get(url, params=..., timeout=...)]: one request on the wire. *)
Definition get (net : Net) (url : string) (params : list (string * pyval))
           (timeout : Z) : IO Response :=
  fun sent =>
    let rq := mkRequest GET url params timeout in
    (match net sent rq with
     | Failed f => inl (exception_of rq f)
     | Replied r => inr r
     end, sent ++ [rq]).

(** [Response.raise_for_status()]: client errors are 400..499, server
    errors 500..599; any other status passes. *)
Definition is_http_error (status : Z) : bool :=
  ((400 <=? status) && (status <? 500) || (500 <=? status) && (status <? 600))%Z.

Definition raise_for_status (r : Response) : IO unit :=
  if is_http_error (status_code r) then raise (HTTPError r) else ret tt.

(** [Response.json()], over the decoder of the [json] module. *)
Definition json_of (loads : string -> option json) (r : Response) : IO json :=
  match loads (text r) with
  | Some j => ret j
  | None => raise (JSONDecodeError r)
  end.

End Requests.

(** ** [fetch_weather] *)

Definition OPEN_METEO_URL : string := "https://api.open-meteo.com/v1/forecast".

Definition HOURLY_FIELDS : string :=
  "temperature_2m,relative_humidity_2m,precipitation,wind_speed_10m".

Definition weather_params (latitude longitude : spec_float)
  : list (string * Requests.pyval) :=
  [ ("latitude", Requests.PyFloat latitude);
    ("longitude", Requests.PyFloat longitude);
    ("current_weather", Requests.PyBool true);
    ("hourly", Requests.PyStr HOURLY_FIELDS);
    ("timezone", Requests.PyStr "auto") ].

Section WeatherClient.

Variable net : Requests.Net.
Variable loads : string -> option json.

Definition fetch_weather (latitude longitude : spec_float) : Requests.IO json :=
  let params := weather_params latitude longitude in
  resp <- Requests.get net OPEN_METEO_URL params 10 ;;
  Requests.raise_for_status resp ;;
  Requests.json_of loads resp.

End WeatherClient.

(** The one request [fetch_weather] puts on the wire. *)
Definition weather_request (latitude longitude : spec_float) : Requests.Request :=
  Requests.mkRequest Requests.GET OPEN_METEO_URL
                     (weather_params latitude longitude) 10.

Definition is_2xx (status : Z) : bool := ((200 <=? status) && (status <? 300))%Z.

(** ** The part of [pandas] that [make_hourly_df] uses *)

Module Pandas.

(** [pandas.Timestamp]: nanoseconds since the epoch, or not-a-time. *)
Inductive Timestamp : Type :=
| NaT
| Stamp (ns : Z).

(** Column labels: the keys of a dict, or positions when a frame is built
    from a list. *)
Inductive label : Type :=
| LStr (s : string)
| LInt (n : Z).

Definition label_eqb (a b : label) : bool :=
  match a, b with
  | LStr s, LStr t => String.eqb s t
  | LInt n, LInt m => Z.eqb n m
  | _, _ => false
  end.

(** A cell holds the decoded value it was built from, or a timestamp once
    the column went through [to_datetime].  Coercion of cells to a numpy
    dtype is not part of the model. *)
Inductive cell : Type :=
| Obj (v : json)
| Datetime (t : Timestamp).

Definition NaN : cell := Obj (JFloat S754_nan).

Inductive Index : Type :=
| RangeIndex (stop : nat)
| LabelIndex (name : option label) (labels : list cell).

Definition index_length (i : Index) : nat :=
  match i with
  | RangeIndex n => n
  | LabelIndex _ labels => length labels
  end.

Definition index_labels (i : Index) : list cell :=
  match i with
  | RangeIndex n => map (fun k => Obj (JInt (Z.of_nat k))) (seq 0 n)
  | LabelIndex _ labels => labels
  end.

Record DataFrame : Type := mkDataFrame {
  index : Index;
  columns : list (label * list cell)
}.

Inductive PandasError : Type :=
| ValueError (msg : string)
| KeyError (key : label)
| TypeError (msg : string)
| DateParseError (value : json).

Inductive result (A : Type) : Type :=
| Ok (a : A)
| Raise (e : PandasError).
Arguments Ok {A} a.
Arguments Raise {A} e.

#[global] Instance Monad_result : Monad result :=
  {| ret := @Ok;
     bind := fun A B (c : result A) (k : A -> result B) =>
               match c with
               | Ok a => k a
               | Raise e => Raise e
               end |}.

(** [pd.DataFrame()] *)
Definition empty_frame : DataFrame := mkDataFrame (RangeIndex 0) [].

Definition column_labels (df : DataFrame) : list label := map fst (columns df).

(** Number of rows and of columns, [df.shape]. *)
Definition shape (df : DataFrame) : nat * nat :=
  (index_length (index df), length (columns df)).

(** *** The constructor on a dict of columns

    Lists are raw arrays, dicts are aligned on the union of their keys,
    anything else is a scalar that is broadcast. *)

Definition raw_lengths (vals : list json) : list nat :=
  flat_map (fun v => match v with JList l => [length l] | _ => [] end) vals.

Definition dict_indexes (vals : list json) : list (list string) :=
  flat_map (fun v => match v with JDict d => [map fst d] | _ => [] end) vals.

(** Keys in order of first appearance. *)
Fixpoint unique_from (seen keys : list string) : list string :=
  match keys with
  | [] => []
  | k :: rest =>
      if existsb (String.eqb k) seen then unique_from seen rest
      else k :: unique_from (k :: seen) rest
  end.

Definition union_indexes (indexes : list (list string)) : list cell :=
  map (fun k => Obj (JStr k)) (unique_from [] (concat indexes)).

Definition all_same_length (n : nat) (lengths : list nat) : bool :=
  forallb (Nat.eqb n) lengths.

(** The index of the new frame, as the constructor derives it from the
    column values: raw arrays must agree in length and give a range, dicts
    give the union of their keys, the two do not mix, and scalars alone give
    no index. *)
Definition extract_index (vals : list json) : result Index :=
  match vals with
  | [] => Ok (RangeIndex 0)
  | _ :: _ =>
      match raw_lengths vals, dict_indexes vals with
      | [], [] =>
          Raise (ValueError "If using all scalar values, you must pass an index")
      | [], (_ :: _) as indexes => Ok (LabelIndex None (union_indexes indexes))
      | n :: lengths, indexes =>
          if negb (all_same_length n lengths) then
            Raise (ValueError "All arrays must be of the same length")
          else
            match indexes with
            | _ :: _ =>
                Raise (ValueError
                         "Mixing dicts with non-Series may lead to ambiguous ordering.")
            | [] => Ok (RangeIndex n)
            end
      end
  end.

(** The cells of one column once the index is known. *)
Definition homogenize (idx : Index) (v : json) : list cell :=
  match v with
  | JList l => map Obj l
  | JDict d =>
      map (fun row => match row with
                      | Obj (JStr k) =>
                          match dict_lookup d k with
                          | Some x => Obj x
                          | None => NaN
                          end
                      | _ => NaN
                      end) (index_labels idx)
  | scalar => repeat (Obj scalar) (index_length idx)
  end.

Definition frame_of_dict (data : dict) : result DataFrame :=
  idx <- extract_index (map snd data) ;;
  ret (mkDataFrame idx
         (map (fun kv => (LStr (fst kv), homogenize idx (snd kv))) data)).

(** [label in df.columns] *)
Definition has_column (df : DataFrame) (l : label) : bool :=
  existsb (label_eqb l) (column_labels df).

(** [df[l]] *)
Definition getitem (df : DataFrame) (l : label) : result (list cell) :=
  match find (fun c => label_eqb l (fst c)) (columns df) with
  | Some c => Ok (snd c)
  | None => Raise (KeyError l)
  end.

(** [df[l] = values]: an existing column is replaced in place, a new one
    goes last. *)
Definition setitem (df : DataFrame) (l : label) (values : list cell) : DataFrame :=
  if has_column df l then
    mkDataFrame (index df)
      (map (fun c => if label_eqb l (fst c) then (fst c, values) else c) (columns df))
  else
    mkDataFrame (index df) (columns df ++ [(l, values)]).

(** [df.set_index(l)]: the column becomes the index and is dropped. *)
Definition set_index (df : DataFrame) (l : label) : result DataFrame :=
  values <- getitem df l ;;
  ret (mkDataFrame (LabelIndex (Some l) values)
         (filter (fun c => negb (label_eqb l (fst c))) (columns df))).

(** [df.rename(columns=mapping)] for a mapping from strings to strings. *)
Fixpoint mapping_lookup (mapping : list (string * string)) (k : string)
  : option string :=
  match mapping with
  | [] => None
  | (k', v) :: rest => if String.eqb k' k then Some v else mapping_lookup rest k
  end.

Definition rename_label (mapping : list (string * string)) (l : label) : label :=
  match l with
  | LStr s =>
      match mapping_lookup mapping s with
      | Some s' => LStr s'
      | None => l
      end
  | LInt _ => l
  end.

Definition rename (df : DataFrame) (mapping : list (string * string)) : DataFrame :=
  mkDataFrame (index df)
    (map (fun c => (rename_label mapping (fst c), snd c)) (columns df)).

(** *** [pd.to_datetime] on a column *)

Inductive errors_mode : Type :=
| errors_raise         (* the default *)
| errors_coerce.

Section Conversion.

(** The conversion of one value by pandas' own parser; [None] when the
    value cannot be read as a timestamp. *)
Variable to_timestamp : json -> option Timestamp.

Definition convert_cell (errors : errors_mode) (c : cell) : result cell :=
  match c with
  | Datetime t => Ok c
  | Obj v =>
      match to_timestamp v with
      | Some t => Ok (Datetime t)
      | None =>
          match errors with
          | errors_raise => Raise (DateParseError v)
          | errors_coerce => Ok (Datetime NaT)
          end
      end
  end.

Fixpoint to_datetime (errors : errors_mode) (col : list cell)
  : result (list cell) :=
  match col with
  | [] => Ok []
  | c :: rest =>
      t <- convert_cell errors c ;;
      ts <- to_datetime errors rest ;;
      ret (t :: ts)
  end.

(** The frame constructor on pandas' other input shapes is taken from
    pandas as it is. *)
Variable frame_of_list : list json -> result DataFrame.

(** [pd.DataFrame(data)] *)
Definition frame_of (data : json) : result DataFrame :=
  match data with
  | JNull => Ok empty_frame
  | JDict d => frame_of_dict d
  | JList items => frame_of_list items
  | JBool _ | JInt _ | JFloat _ | JStr _ =>
      Raise (ValueError "DataFrame constructor not properly called!")
  end.

End Conversion.

End Pandas.

Import Pandas.

(** ** [make_hourly_df] *)

Definition rename_map : list (string * string) :=
  [ ("temperature_2m", "Temperature (°C)");
    ("relative_humidity_2m", "Humidity (%)");
    ("precipitation", "Precipitation (mm)");
    ("wind_speed_10m", "Wind speed (km/h)") ].

Section HourlyNormalizer.

Variable to_timestamp : json -> option Timestamp.
Variable frame_of_list : list json -> result DataFrame.

(** Lines 42-44: the [time] column, when there is one, is parsed and
    becomes the index. *)
Definition index_by_time (df : DataFrame) : result DataFrame :=
  if has_column df (LStr "time") then
    col <- getitem df (LStr "time") ;;
    parsed <- to_datetime to_timestamp errors_raise col ;;
    set_index (setitem df (LStr "time") parsed) (LStr "time")
  else ret df.

(** Line 53: only the entries of [rename_map] whose key is a column are
    passed to [rename]. *)
Definition rename_columns (df : DataFrame) : DataFrame :=
  rename df (filter (fun kv => has_column df (LStr (fst kv))) rename_map).

Definition make_hourly_df (weather_json : dict) : result DataFrame :=
  let hourly := dict_get weather_json "hourly" (JDict []) in
  if negb (truthy hourly) then ret empty_frame
  else
    df <- frame_of frame_of_list hourly ;;
    df <- index_by_time df ;;
    ret (rename_columns df).

End HourlyNormalizer.

(** Line 133 of [main]: the current-weather block is read by a chain of
    lookups that never touches [hourly]. *)
Definition current_block (weather_json : dict) : json :=
  let current := dict_get weather_json "current_weather" JNull in
  if truthy current then current else dict_get weather_json "current" (JDict []).

(** ** Vocabulary of the properties *)

(** The display label a key is shown under: the entry of [rename_map], or
    the key itself. *)
Definition display (k : string) : string :=
  match mapping_lookup rename_map k with
  | Some v => v
  | None => k
  end.

Definition known_field (k : string) : bool :=
  existsb (String.eqb k) (map fst rename_map).

(** An hourly section of parallel arrays: every field is a list of [n]
    entries. *)
Definition is_array_of (n : nat) (v : json) : bool :=
  match v with
  | JList l => Nat.eqb (length l) n
  | _ => false
  end.

Definition parallel_arrays (n : nat) (fields : dict) : bool :=
  forallb (fun kv => is_array_of n (snd kv)) fields.

(** The cells of one array of the section, entry by entry. *)
Definition array_cells (v : json) : list cell :=
  match v with
  | JList l => map Obj l
  | _ => []
  end.

(** The fields of a section other than [time], in order. *)
Definition data_fields (fields : dict) : dict := dict_remove fields "time".

(** ** A reference timestamp reader

    ISO-8601 local times at minute resolution, [YYYY-MM-DDTHH:MM], the form
    the provider sends; it instantiates pandas' parser in the examples. *)

Module Iso8601.

Definition digit (c : ascii) : option Z :=
  let n := Z.of_nat (nat_of_ascii c) in
  if ((48 <=? n) && (n <=? 57))%Z then Some (n - 48)%Z else None.

Fixpoint number_from (acc : Z) (cs : list ascii) : option Z :=
  match cs with
  | [] => Some acc
  | c :: rest =>
      match digit c with
      | Some d => number_from (10 * acc + d)%Z rest
      | None => None
      end
  end.

Definition is_leap (y : Z) : bool :=
  ((y mod 4 =? 0) && (negb (y mod 100 =? 0) || (y mod 400 =? 0)))%Z.

Definition days_in_month (y m : Z) : Z :=
  if (m =? 2)%Z then (if is_leap y then 29 else 28)%Z
  else if ((m =? 4) || (m =? 6) || (m =? 9) || (m =? 11))%Z then 30%Z
  else 31%Z.

(** Days from 1970-01-01 to the civil date, proleptic Gregorian. *)
Definition days_from_civil (y m d : Z) : Z :=
  let y' := (if m <=? 2 then y - 1 else y)%Z in
  let era := (y' / 400)%Z in
  let yoe := (y' - era * 400)%Z in
  let mp := ((m + 9) mod 12)%Z in
  let doy := ((153 * mp + 2) / 5 + d - 1)%Z in
  let doe := (yoe * 365 + yoe / 4 - yoe / 100 + doy)%Z in
  (era * 146097 + doe - 719468)%Z.

Definition is_char (c : ascii) (s : string) : bool :=
  String.eqb (String c EmptyString) s.

Definition of_fields (y m d h mi : Z) : option Timestamp :=
  if ((1 <=? m) && (m <=? 12) && (1 <=? d) && (d <=? days_in_month y m)
      && (h <? 24) && (mi <? 60))%Z
  then Some (Stamp ((((days_from_civil y m d * 24 + h) * 60 + mi) * 60)
                    * 1000000000)%Z)
  else None.

Definition parse (s : string) : option Timestamp :=
  match list_ascii_of_string s with
  | [y1; y2; y3; y4; s1; m1; m2; s2; d1; d2; t; h1; h2; s3; n1; n2] =>
      if is_char s1 "-" && is_char s2 "-" && is_char t "T" && is_char s3 ":" then
        match number_from 0 [y1; y2; y3; y4], number_from 0 [m1; m2],
              number_from 0 [d1; d2], number_from 0 [h1; h2],
              number_from 0 [n1; n2] with
        | Some y, Some m, Some d, Some h, Some mi => of_fields y m d h mi
        | _, _, _, _, _ => None
        end
      else None
  | _ => None
  end.

(** One cell: strings are parsed, a missing value is not-a-time. *)
Definition to_timestamp (v : json) : option Timestamp :=
  match v with
  | JStr s => parse s
  | JNull => Some NaT
  | _ => None
  end.

End Iso8601.

(** ** The rest of the script: views of a frame, Streamlit and [main] *)

(** A decoded value that the frame constructor takes for a scalar: neither
    a list nor a mapping. *)
Definition is_scalar (v : json) : bool :=
  match v with
  | JList _ | JDict _ => false
  | _ => true
  end.

(** The frame operations [main] applies to the hourly table. *)
Module Views.

(** [df.empty]: one of the two axes has length 0. *)
Definition empty (df : DataFrame) : bool :=
  Nat.eqb (index_length (index df)) 0
  || match columns df with
     | [] => true
     | _ :: _ => false
     end.

Definition index_head (k : nat) (i : Index) : Index :=
  match i with
  | RangeIndex n => RangeIndex (Nat.min k n)
  | LabelIndex name labels => LabelIndex name (firstn k labels)
  end.

(** [df.iloc[:k]], which is also [df.head(k)] for a positive [k]. *)
Definition head (k : nat) (df : DataFrame) : DataFrame :=
  mkDataFrame (index_head k (index df))
    (map (fun c => (fst c, firstn k (snd c))) (columns df)).

(** [df[l]] as the data handed to a chart: the index and the column (every
    column, should several carry the label). *)
Definition select (df : DataFrame) (l : label) : DataFrame :=
  mkDataFrame (index df) (filter (fun c => label_eqb l (fst c)) (columns df)).

(** Every column has one cell per index entry. *)
Definition rectangular (df : DataFrame) : Prop :=
  Forall (fun c => length (snd c) = index_length (index df)) (columns df).

End Views.

Module Streamlit.

Inductive container : Type :=
| col_map
| col_data
| col1
| col2
| spinner (text : string)
| tab (name : string).

(** [folium.Map(location=..., zoom_start=..., tiles=...)] *)
Record FoliumMap : Type := mkFoliumMap {
  location : spec_float * spec_float;
  zoom_start : Z;
  tiles : string
}.

(** The calls the script makes on the page, in the order it makes them;
    [Enter] and [Leave] delimit a [with] block. *)
Inductive call : Type :=
| SetPageConfig (page_title layout : string)
| Title (body : string)
| Write (body : string)
| Columns (weights : list Z)
| ColumnsCount (n : Z)
| Subheader (body : string)
| Markdown (body : string)
| StFolium (m : FoliumMap) (width : string) (height : Z)
           (returned_objects : list string)
| Info (body : string)
| ErrorBox (body : string)
| Warning (body : string)
| Caption (body : string)
| Metric (name value : string)
| Tabs (names : list string)
| LineChart (data : DataFrame)
| Dataframe (data : DataFrame)
| Enter (c : container)
| Leave (c : container).

(** The calls that show weather data. *)
Definition shows_weather (c : call) : bool :=
  match c with
  | Metric _ _ | Caption _ | Tabs _ | LineChart _ | Dataframe _ => true
  | _ => false
  end.

Definition is_current_card (c : call) : bool :=
  match c with
  | Metric _ _ | Caption _ => true
  | _ => false
  end.

Definition is_chart_or_table (c : call) : bool :=
  match c with
  | Tabs _ | LineChart _ | Dataframe _ => true
  | _ => false
  end.

End Streamlit.

Import Streamlit.

(** What [st_folium] hands back with [returned_objects=["last_clicked"]]: a
    mapping whose [last_clicked] is [None] until a point is clicked. *)
Record LatLng : Type := mkLatLng {
  lat : spec_float;
  lng : spec_float
}.

Record MapData : Type := mkMapData {
  last_clicked : option LatLng
}.

(** One run of the script: what went on the page and what went on the wire. *)
Record Session : Type := mkSession {
  ui : list call;
  wire : list Requests.Request
}.

(** The exceptions [main] lets through. *)
Inductive AppError : Type :=
| AttributeError (attribute : string)
| PandasFailure (e : PandasError).

Definition App (A : Type) : Type := Session -> (AppError + A) * Session.

#[global] Instance Monad_App : Monad App :=
  {| ret := fun A (a : A) (s : Session) => (inr a, s);
     bind := fun A B (c : App A) (k : A -> App B) (s : Session) =>
               match c s with
               | (inl e, s') => (inl e, s')
               | (inr a, s') => k a s'
               end |}.

Definition st (c : call) : App unit :=
  fun s => (inr tt, mkSession (ui s ++ [c]) (wire s)).

Definition app_raise {A} (e : AppError) : App A := fun s => (inl e, s).

(** [with c: body]; the block is left on a normal end, on [return] and on an
    exception alike. *)
Definition within {A} (c : container) (body : App A) : App A :=
  fun s =>
    match body (mkSession (ui s ++ [Enter c]) (wire s)) with
    | (r, s') => (r, mkSession (ui s' ++ [Leave c]) (wire s'))
    end.

(** A call of the client from the page: its requests go on the wire, its
    exception or value is handed back ([try] ... [except Exception as e]). *)
Definition attempt {A} (c : Requests.IO A) : App (Requests.RequestException + A) :=
  fun s =>
    match c (wire s) with
    | (r, sent) => (inr r, mkSession (ui s) sent)
    end.

Definition of_pandas {A} (r : result A) : App A :=
  match r with
  | Ok a => ret a
  | Raise e => app_raise (PandasFailure e)
  end.

Definition newline : string := String (ascii_of_nat 10) EmptyString.

(** [x is None] on a decoded value. *)
Definition is_none (v : json) : bool :=
  match v with
  | JNull => true
  | _ => false
  end.

Section Dashboard.

Variable net : Requests.Net.
Variable loads : string -> option json.
Variable to_timestamp : json -> option Timestamp.
Variable frame_of_list : list json -> result DataFrame.

(** Python's formatting, as the f-strings of [main] use it: [{x:.4f}] on a
    float, [{v}] on a decoded value, [{e}] on an exception. *)
Variable format_4f : spec_float -> string.
Variable py_str : json -> string.
Variable exc_str : Requests.RequestException -> string.

(** Lines 75-103: the map column; the value is [last_clicked]. *)
Definition render_map (map_data : option MapData) : App (option LatLng) :=
  within col_map
    (st (Subheader "1. 지도에서 위치 선택하기") ;;
     st (Markdown ("지도 위 아무 곳이나 클릭해 보세요.  " ++ newline
                   ++ "**선택한 좌표의 날씨 데이터**를 오른쪽에서 볼 수 있습니다.")) ;;
     let default_lat := b64 73 (-1) in
     let default_lon := SFdiv 53 1024 (b64 1278 0) (b64 10 0) in
     let m := mkFoliumMap (default_lat, default_lon) 4 "OpenStreetMap" in
     st (StFolium m "100%" 550 ["last_clicked"]) ;;
     ret (match map_data with
          | Some data => last_clicked data
          | None => None
          end)).

(** Lines 134-154: the current-weather cards, or the warning. *)
Definition render_current (current : json) : App unit :=
  if truthy current then
    st (Markdown "### 🌤 현재 날씨") ;;
    match current with
    | JDict fields =>
        let temp := dict_get fields "temperature" JNull in
        let windspeed := dict_get fields "windspeed" JNull in
        let winddir := dict_get fields "winddirection" JNull in
        let weathercode := dict_get fields "weathercode" JNull in
        st (Metric "Temperature (°C)"
              (if negb (is_none temp) then py_str temp ++ " °C" else "-")) ;;
        st (ColumnsCount 2) ;;
        within col1
          (st (Metric "Wind speed (km/h)"
                 (if negb (is_none windspeed) then py_str windspeed else "-"))) ;;
        within col2
          (st (Metric "Wind direction (°)"
                 (if negb (is_none winddir) then py_str winddir else "-"))) ;;
        if negb (is_none weathercode) then
          st (Caption ("Weather code: " ++ py_str weathercode
                       ++ "  (Open-Meteo weathercode)"))
        else ret tt
    | _ => app_raise (AttributeError "get")
    end
  else
    st (Warning "현재 날씨 정보(current_weather)를 가져오지 못했습니다.").

(** One tab of lines 170-184. *)
Definition chart_tab (df_plot : DataFrame) (column name : string) : App unit :=
  if has_column df_plot (LStr column) then
    within (tab name) (st (LineChart (Views.select df_plot (LStr column))))
  else ret tt.

(** Lines 160-187: the charts and the raw table, or the notice. *)
Definition render_hourly (df_hourly : DataFrame) : App unit :=
  if Views.empty df_hourly then
    st (Info "시간별 예보 데이터가 없습니다.")
  else
    let df_plot := Views.head 48 df_hourly in
    st (Tabs ["Temperature"; "Humidity"; "Precipitation"; "Wind speed"]) ;;
    chart_tab df_plot "Temperature (°C)" "Temperature" ;;
    chart_tab df_plot "Humidity (%)" "Humidity" ;;
    chart_tab df_plot "Precipitation (mm)" "Precipitation" ;;
    chart_tab df_plot "Wind speed (km/h)" "Wind speed" ;;
    st (Markdown "#### Raw hourly data") ;;
    st (Dataframe (Views.head 72 df_hourly)).

(** Lines 133-187, on the decoded response. *)
Definition render_weather (weather_json : json) : App unit :=
  match weather_json with
  | JDict response =>
      render_current (current_block response) ;;
      st (Markdown
            "### ⏱ 시간별 예보 (Temperature / Humidity / Precipitation / Wind)") ;;
      df_hourly <- of_pandas (make_hourly_df to_timestamp frame_of_list response) ;;
      render_hourly df_hourly
  | _ => app_raise (AttributeError "get")
  end.

(** Lines 115-187: the weather of the clicked point. *)
Definition render_point (point : LatLng) : App unit :=
  let lat := lat point in
  let lon := lng point in
  st (Markdown ("**선택한 위치:**  " ++ newline
                ++ "- 위도 (Latitude): `" ++ format_4f lat ++ "`  " ++ newline
                ++ "- 경도 (Longitude): `" ++ format_4f lon ++ "`")) ;;
  fetched <- within (spinner "날씨 데이터를 불러오는 중입니다...")
               (attempt (fetch_weather net loads lat lon)) ;;
  match fetched with
  | inl e =>
      st (ErrorBox ("Open-Meteo API 요청 중 오류가 발생했습니다: " ++ exc_str e))
  | inr weather_json => render_weather weather_json
  end.

Definition main (map_data : option MapData) : App unit :=
  st (SetPageConfig "Open-Meteo Interactive Weather Dashboard" "wide") ;;
  st (Title "Open-Meteo Interactive Weather Dashboard") ;;
  st (Write ("Open-Meteo의 무료 날씨 API를 활용한 인터랙티브 대시보드 예제입니다.  "
             ++ newline
             ++ "지도를 클릭하면 해당 위치의 위도/경도를 가져와서 현재 날씨와 시간별 예보를 보여줍니다.")) ;;
  st (Columns [2; 1]%Z) ;;
  clicked <- render_map map_data ;;
  within col_data
    (st (Subheader "2. 선택한 위치의 날씨 데이터") ;;
     match clicked with
     | None => st (Info "왼쪽 지도를 클릭해서 위치를 먼저 선택해 주세요.")
     | Some point => render_point point
     end).

(** A run of the script on a fresh page. *)
Definition run_main (map_data : option MapData) (sent : list Requests.Request)
  : (AppError + unit) * Session :=
  main map_data (mkSession [] sent).

End Dashboard.

(** * Properties *)

(** ** The weather client *)

Section WeatherClientFacts.

Variable net : Requests.Net.
Variable loads : string -> option json.

(** Whatever the network answers, one call leaves exactly one more request
    on the wire, and it is [weather_request]. *)
Lemma fetch_weather_wire (latitude longitude : spec_float)
      (sent : list Requests.Request) :
  snd (fetch_weather net loads latitude longitude sent)
  = sent ++ [weather_request latitude longitude].
Proof.
  unfold fetch_weather, weather_request; cbn.
  unfold Requests.io_bind, Requests.get.
  destruct (net sent _) as [f | r]; cbn; [reflexivity |].
  unfold Requests.raise_for_status.
  destruct (Requests.is_http_error (Requests.status_code r)); cbn; [reflexivity |].
  unfold Requests.json_of.
  destruct (loads (Requests.text r)); reflexivity.
Qed.

Lemma fetch_weather_reply (latitude longitude : spec_float)
      (sent : list Requests.Request) (r : Requests.Response) :
  net sent (weather_request latitude longitude) = Requests.Replied r ->
  fst (fetch_weather net loads latitude longitude sent)
  = if Requests.is_http_error (Requests.status_code r)
    then inl (Requests.HTTPError r)
    else match loads (Requests.text r) with
         | Some j => inr j
         | None => inl (Requests.JSONDecodeError r)
         end.
Proof.
  intros Hnet.
  unfold fetch_weather; cbn.
  unfold Requests.io_bind, Requests.get.
  change (Requests.mkRequest Requests.GET OPEN_METEO_URL
            (weather_params latitude longitude) 10)
    with (weather_request latitude longitude).
  rewrite Hnet; cbn.
  unfold Requests.raise_for_status.
  destruct (Requests.is_http_error (Requests.status_code r)); cbn; [reflexivity |].
  unfold Requests.json_of.
  destruct (loads (Requests.text r)); reflexivity.
Qed.

Lemma fetch_weather_transport_failure (latitude longitude : spec_float)
      (sent : list Requests.Request) (f : Requests.TransportFailure) :
  net sent (weather_request latitude longitude) = Requests.Failed f ->
  fst (fetch_weather net loads latitude longitude sent)
  = inl (Requests.exception_of (weather_request latitude longitude) f).
Proof.
  intros Hnet.
  unfold fetch_weather; cbn.
  unfold Requests.io_bind, Requests.get.
  change (Requests.mkRequest Requests.GET OPEN_METEO_URL
            (weather_params latitude longitude) 10)
    with (weather_request latitude longitude).
  rewrite Hnet; reflexivity.
Qed.

End WeatherClientFacts.

(** C1. For every valid coordinate pair, [fetch_weather] sends one GET to the
    forecast endpoint whose parameters are exactly latitude, longitude,
    current_weather = True, hourly = the fixed comma-joined list and
    timezone = auto, with a timeout of 10 seconds; and when the provider
    answers 200 with a body that decodes to [j], the call returns [j]. *)
Theorem fetch_weather_sends_fixed_request_and_returns_body
        (net : Requests.Net) (loads : string -> option json)
        (latitude longitude : spec_float) (sent : list Requests.Request) :
  valid_coordinate latitude longitude = true ->
  let rq :=
    Requests.mkRequest Requests.GET "https://api.open-meteo.com/v1/forecast"
      [ ("latitude", Requests.PyFloat latitude);
        ("longitude", Requests.PyFloat longitude);
        ("current_weather", Requests.PyBool true);
        ("hourly", Requests.PyStr
           "temperature_2m,relative_humidity_2m,precipitation,wind_speed_10m");
        ("timezone", Requests.PyStr "auto") ]
      10 in
  snd (fetch_weather net loads latitude longitude sent) = sent ++ [rq]
  /\ forall (r : Requests.Response) (j : json),
       net sent rq = Requests.Replied r ->
       Requests.status_code r = 200%Z ->
       loads (Requests.text r) = Some j ->
       fst (fetch_weather net loads latitude longitude sent) = inr j.
Proof.
  intros _ rq.
  split.
  - apply fetch_weather_wire.
  - intros r j Hnet Hstatus Hbody.
    rewrite (fetch_weather_reply net loads latitude longitude sent r Hnet).
    rewrite Hstatus, Hbody. reflexivity.
Qed.

(** C1, at the default map centre (36.5, 127.75) with a provider that
    answers 200. *)
Lemma fetch_weather_sends_fixed_request_and_returns_body_witness :
  let net : Requests.Net :=
    fun _ _ => Requests.Replied (Requests.mkResponse 200 "{}") in
  let loads := fun s : string => if String.eqb s "{}" then Some (JDict []) else None in
  valid_coordinate (b64 73 (-1)) (b64 511 (-2)) = true
  /\ fetch_weather net loads (b64 73 (-1)) (b64 511 (-2)) []
     = (inr (JDict []), [weather_request (b64 73 (-1)) (b64 511 (-2))]).
Proof.
  intros net loads.
  split; [reflexivity |].
  destruct (fetch_weather_sends_fixed_request_and_returns_body
              net loads (b64 73 (-1)) (b64 511 (-2)) [] eq_refl) as [Hwire Hbody].
  specialize (Hbody (Requests.mkResponse 200 "{}") (JDict []) eq_refl eq_refl eq_refl).
  rewrite (surjective_pairing (fetch_weather net loads (b64 73 (-1)) (b64 511 (-2)) [])).
  rewrite Hwire, Hbody. reflexivity.
Defined.

(** C2 as stated fails: a provider that answers 300, which is not a 2xx
    status, with a JSON body gets its body returned; [raise_for_status]
    raises on 4xx and 5xx only. *)
Lemma fetch_weather_returns_on_status_300 :
  let net : Requests.Net :=
    fun _ _ => Requests.Replied (Requests.mkResponse 300 "{}") in
  let loads := fun s : string => if String.eqb s "{}" then Some (JDict []) else None in
  is_2xx 300 = false
  /\ fetch_weather net loads (b64 73 (-1)) (b64 511 (-2)) []
     = (inr (JDict []), [weather_request (b64 73 (-1)) (b64 511 (-2))]).
Proof. split; reflexivity. Qed.

(** C2, amended. When the provider answers with a 4xx or 5xx status, the
    network fails, or the timeout elapses, [fetch_weather] returns no value:
    it raises the exception that carries the cause (the response for an HTTP
    error, the failure detail for a connection error, the 10-second limit for
    a timeout), and exactly one request has gone out. *)
Theorem fetch_weather_fails_after_one_attempt
        (net : Requests.Net) (loads : string -> option json)
        (latitude longitude : spec_float) (sent : list Requests.Request) :
  let rq := weather_request latitude longitude in
  (exists f, net sent rq = Requests.Failed f)
  \/ (exists r, net sent rq = Requests.Replied r
                /\ (400 <= Requests.status_code r < 600)%Z) ->
  exists e : Requests.RequestException,
    fetch_weather net loads latitude longitude sent = (inl e, sent ++ [rq])
    /\ match net sent rq with
       | Requests.Failed (Requests.ConnectionFailed detail) =>
           e = Requests.ConnectionError detail
       | Requests.Failed Requests.TimedOut => e = Requests.Timeout 10
       | Requests.Replied r => e = Requests.HTTPError r
       end.
Proof.
  intros rq [[f Hnet] | [r [Hnet Hstatus]]].
  - exists (Requests.exception_of rq f). split.
    + rewrite (surjective_pairing (fetch_weather net loads latitude longitude sent)).
      rewrite fetch_weather_wire.
      rewrite (fetch_weather_transport_failure net loads latitude longitude sent f Hnet).
      reflexivity.
    + fold rq. rewrite Hnet. destruct f; reflexivity.
  - exists (Requests.HTTPError r). split.
    + rewrite (surjective_pairing (fetch_weather net loads latitude longitude sent)).
      rewrite fetch_weather_wire.
      rewrite (fetch_weather_reply net loads latitude longitude sent r Hnet).
      replace (Requests.is_http_error (Requests.status_code r)) with true; [reflexivity |].
      unfold Requests.is_http_error. symmetry.
      destruct (Z.ltb_spec (Requests.status_code r) 500).
      * rewrite andb_true_r. apply orb_true_iff. left. apply Z.leb_le. lia.
      * rewrite andb_false_r. cbn. apply andb_true_iff.
        split; [apply Z.leb_le | apply Z.ltb_lt]; lia.
    + fold rq. rewrite Hnet. reflexivity.
Qed.

(** C2 amended, with a provider answering 503 and with a timeout. *)
Lemma fetch_weather_fails_after_one_attempt_witness :
  let down : Requests.Net :=
    fun _ _ => Requests.Replied (Requests.mkResponse 503 "Service Unavailable") in
  let loads := fun _ : string => @None json in
  exists e,
    fetch_weather down loads (b64 73 (-1)) (b64 511 (-2)) []
    = (inl e, [weather_request (b64 73 (-1)) (b64 511 (-2))])
    /\ e = Requests.HTTPError (Requests.mkResponse 503 "Service Unavailable").
Proof.
  intros down loads.
  apply (fetch_weather_fails_after_one_attempt down loads (b64 73 (-1)) (b64 511 (-2)) []).
  right. exists (Requests.mkResponse 503 "Service Unavailable").
  split; [reflexivity | cbn; lia].
Defined.

(** ** Dictionaries, labels and the rename mapping *)

#[local] Arguments String.eqb : simpl never.

Lemma label_eqb_refl (l : label) : label_eqb l l = true.
Proof. destruct l; cbn; [apply String.eqb_refl | apply Z.eqb_refl]. Qed.

Lemma dict_lookup_remove_other (d : dict) (k k' : string) :
  String.eqb k k' = false ->
  dict_lookup (dict_remove d k) k' = dict_lookup d k'.
Proof.
  intros Hneq. unfold dict_remove.
  induction d as [| [a v] d IH]; cbn; [reflexivity |].
  destruct (String.eqb_spec a k) as [-> | _]; cbn.
  - rewrite Hneq. exact IH.
  - now rewrite IH.
Qed.

Lemma mapping_lookup_in (m : list (string * string)) (k v : string) :
  mapping_lookup m k = Some v -> In (k, v) m.
Proof.
  induction m as [| [k' v'] m IH]; cbn; [discriminate |].
  destruct (String.eqb_spec k' k) as [-> | _].
  - intros [= ->]. now left.
  - intros H. right. now apply IH.
Qed.

(** Dropping entries whose key fails a test does not change the lookup of a
    key that passes it. *)
Lemma mapping_lookup_filter_keep (q : string -> bool) (m : list (string * string))
      (k : string) :
  q k = true ->
  mapping_lookup (filter (fun kv => q (fst kv)) m) k = mapping_lookup m k.
Proof.
  intros Hq.
  induction m as [| [k' v'] m IH]; cbn; [reflexivity |].
  destruct (q k') eqn:Hq'; cbn.
  - now rewrite IH.
  - destruct (String.eqb_spec k' k) as [-> | _]; [congruence | exact IH].
Qed.

(** No display label is itself a key of [rename_map]. *)
Lemma display_labels_not_keys (k v : string) :
  In (k, v) rename_map -> mapping_lookup rename_map v = None.
Proof.
  unfold rename_map. cbn.
  intros [H | [H | [H | [H | []]]]]; injection H as <- <-; reflexivity.
Qed.

Lemma rename_label_display (k : string) :
  rename_label rename_map (LStr k) = LStr (display k).
Proof.
  unfold rename_label, display. now destruct (mapping_lookup rename_map k).
Qed.

(** A renamed label is not renamed again. *)
Lemma rename_label_fixed (l : label) :
  rename_label rename_map (rename_label rename_map l) = rename_label rename_map l.
Proof.
  destruct l as [s | n]; [| reflexivity].
  cbn [rename_label].
  destruct (mapping_lookup rename_map s) as [v |] eqn:E; cbn [rename_label].
  - now rewrite (display_labels_not_keys s v (mapping_lookup_in _ _ _ E)).
  - now rewrite E.
Qed.

Lemma known_field_lookup (k : string) :
  known_field k = false <-> mapping_lookup rename_map k = None.
Proof.
  unfold known_field, rename_map. cbn.
  rewrite !(String.eqb_sym k).
  destruct (String.eqb "temperature_2m" k); cbn; [split; discriminate |].
  destruct (String.eqb "relative_humidity_2m" k); cbn; [split; discriminate |].
  destruct (String.eqb "precipitation" k); cbn; [split; discriminate |].
  destruct (String.eqb "wind_speed_10m" k); cbn; [split; discriminate |].
  split; reflexivity.
Qed.

(** ** Frames *)

Lemma has_column_in (df : DataFrame) (c : label * list cell) :
  In c (columns df) -> has_column df (fst c) = true.
Proof.
  intros Hin. unfold has_column, column_labels.
  apply existsb_exists. exists (fst c). split.
  - now apply in_map.
  - apply label_eqb_refl.
Qed.

Lemma has_column_false (df : DataFrame) (l : label) :
  has_column df l = false ->
  filter (fun c => negb (label_eqb l (fst c))) (columns df) = columns df.
Proof.
  unfold has_column, column_labels. intros H.
  apply forallb_filter_id. apply forallb_forall. intros c Hin.
  destruct (label_eqb l (fst c)) eqn:E; [| reflexivity].
  exfalso. enough (existsb (label_eqb l) (map fst (columns df)) = true) by congruence.
  apply existsb_exists. exists (fst c). split; [now apply in_map | exact E].
Qed.

(** [rename] with the entries filtered on the frame's own columns renames
    exactly as the whole of [rename_map] does. *)
Lemma rename_columns_all (df : DataFrame) :
  rename_columns df = rename df rename_map.
Proof.
  unfold rename_columns, rename. f_equal.
  apply map_ext_in. intros c Hin. f_equal.
  pose proof (has_column_in df c Hin) as Hcol.
  destruct (fst c) as [s | n]; [| reflexivity].
  unfold rename_label.
  now rewrite (mapping_lookup_filter_keep (fun k => has_column df (LStr k))).
Qed.

Lemma setitem_then_drop (l : label) (values : list cell)
      (cols : list (label * list cell)) :
  filter (fun c => negb (label_eqb l (fst c)))
         (map (fun c => if label_eqb l (fst c) then (fst c, values) else c) cols)
  = filter (fun c => negb (label_eqb l (fst c))) cols.
Proof.
  induction cols as [| c cols IH]; cbn; [reflexivity |].
  destruct (label_eqb l (fst c)) eqn:E; cbn; rewrite E; cbn; now rewrite IH.
Qed.

Lemma getitem_setitem (df : DataFrame) (l : label) (values : list cell) :
  has_column df l = true ->
  getitem (setitem df l values) l = Ok values.
Proof.
  intros H. unfold setitem. rewrite H. unfold getitem. cbn.
  unfold has_column, column_labels in H.
  induction (columns df) as [| c cols IH]; cbn in *; [discriminate |].
  destruct (label_eqb l (fst c)) eqn:E; cbn; rewrite E; [reflexivity |].
  cbn in H. now apply IH.
Qed.

(** ** The constructor on a dict *)

Lemma frame_of_dict_inv (fields : dict) (df : DataFrame) :
  frame_of_dict fields = Ok df ->
  exists idx,
    extract_index (map snd fields) = Ok idx
    /\ df = mkDataFrame idx
              (map (fun kv => (LStr (fst kv), homogenize idx (snd kv))) fields).
Proof.
  unfold frame_of_dict. cbn.
  destruct (extract_index (map snd fields)) as [idx | e]; [| discriminate].
  intros [= <-]. now exists idx.
Qed.

Lemma raw_lengths_in (fields : dict) (k : string) (l : list json) :
  In (k, JList l) fields -> In (length l) (raw_lengths (map snd fields)).
Proof.
  intros Hin. unfold raw_lengths. apply in_flat_map.
  exists (JList l). split; [| now left].
  apply in_map_iff. now exists (k, JList l).
Qed.

Lemma all_same_length_in (n : nat) (lengths : list nat) (a b : nat) :
  all_same_length n lengths = true ->
  In a (n :: lengths) -> In b (n :: lengths) -> a = b.
Proof.
  unfold all_same_length. rewrite forallb_forall. intros H Ha Hb.
  assert (Hn : forall x, In x (n :: lengths) -> x = n).
  { intros x [<- | Hx]; [reflexivity |]. symmetry. apply Nat.eqb_eq. now apply H. }
  now rewrite (Hn a Ha), (Hn b Hb).
Qed.

Lemma parallel_raw_lengths (n : nat) (fields : dict) :
  parallel_arrays n fields = true ->
  raw_lengths (map snd fields) = map (fun _ => n) fields
  /\ dict_indexes (map snd fields) = [].
Proof.
  unfold parallel_arrays, raw_lengths, dict_indexes.
  induction fields as [| [k v] fields IH]; cbn; [now split |].
  intros H. apply andb_true_iff in H as [Hv Hrest].
  destruct (IH Hrest) as [IH1 IH2].
  destruct v; cbn in Hv; try discriminate.
  apply Nat.eqb_eq in Hv. cbn. now rewrite IH1, IH2, Hv.
Qed.

Lemma extract_index_parallel (n : nat) (fields : dict) :
  fields <> [] ->
  parallel_arrays n fields = true ->
  extract_index (map snd fields) = Ok (RangeIndex n).
Proof.
  intros Hne Hpar.
  destruct (parallel_raw_lengths n fields Hpar) as [Hraw Hidx].
  unfold extract_index. rewrite Hraw, Hidx.
  destruct fields as [| kv fields]; [congruence |]. cbn.
  replace (all_same_length n (map (fun _ => n) fields)) with true; [reflexivity |].
  symmetry. unfold all_same_length. apply forallb_forall.
  intros x Hx. apply in_map_iff in Hx as [_ [<- _]]. apply Nat.eqb_refl.
Qed.

Lemma homogenize_parallel (n : nat) (fields : dict) (idx : Index) :
  parallel_arrays n fields = true ->
  Forall (fun kv => exists l, snd kv = JList l /\ length l = n
                              /\ homogenize idx (snd kv) = map Obj l) fields.
Proof.
  unfold parallel_arrays. rewrite forallb_forall, Forall_forall.
  intros H kv Hin. specialize (H kv Hin).
  destruct (snd kv); cbn in H; try discriminate.
  apply Nat.eqb_eq in H. eauto.
Qed.

Lemma getitem_frame (idx : Index) (g : json -> list cell) (fields : dict)
      (k : string) :
  getitem (mkDataFrame idx (map (fun kv => (LStr (fst kv), g (snd kv))) fields))
          (LStr k)
  = match dict_lookup fields k with
    | Some v => Ok (g v)
    | None => Raise (KeyError (LStr k))
    end.
Proof.
  unfold getitem. cbn [columns].
  induction fields as [| [k' v] fields IH]; cbn; [reflexivity |].
  rewrite (String.eqb_sym k k').
  destruct (String.eqb k' k); [reflexivity | exact IH].
Qed.

Lemma has_column_frame (idx : Index) (g : json -> list cell) (fields : dict)
      (k : string) :
  has_column (mkDataFrame idx (map (fun kv => (LStr (fst kv), g (snd kv))) fields))
             (LStr k)
  = match dict_lookup fields k with
    | Some _ => true
    | None => false
    end.
Proof.
  unfold has_column, column_labels. cbn [columns].
  induction fields as [| [k' v] fields IH]; cbn; [reflexivity |].
  rewrite (String.eqb_sym k k').
  destruct (String.eqb k' k); [reflexivity | exact IH].
Qed.

Lemma known_field_cases (k : string) :
  known_field k = true ->
  k = "temperature_2m" \/ k = "relative_humidity_2m"
  \/ k = "precipitation" \/ k = "wind_speed_10m".
Proof.
  unfold known_field, rename_map. cbn.
  destruct (String.eqb_spec k "temperature_2m"); [auto |].
  destruct (String.eqb_spec k "relative_humidity_2m"); [auto |].
  destruct (String.eqb_spec k "precipitation"); [auto |].
  destruct (String.eqb_spec k "wind_speed_10m"); [auto |].
  discriminate.
Qed.

Lemma display_unknown (k : string) : known_field k = false -> display k = k.
Proof.
  intros H. apply known_field_lookup in H. unfold display. now rewrite H.
Qed.

(** Distinct known fields have distinct display labels. *)
Lemma display_injective_on_known (a b : string) :
  known_field a = true -> known_field b = true -> display a = display b -> a = b.
Proof.
  intros Ha Hb.
  destruct (known_field_cases a Ha) as [-> | [-> | [-> | ->]]];
    destruct (known_field_cases b Hb) as [-> | [-> | [-> | ->]]];
    vm_compute; intros H; try reflexivity; discriminate H.
Qed.

(** ** The normalizer *)

Section HourlyNormalizerFacts.

Variable to_timestamp : json -> option Timestamp.
Variable frame_of_list : list json -> result DataFrame.

(** With [errors="raise"], one value that cannot be read makes the whole
    column conversion raise. *)
Lemma to_datetime_raises (col : list cell) (v : json) :
  In (Obj v) col ->
  to_timestamp v = None ->
  exists bad,
    In (Obj bad) col /\ to_timestamp bad = None
    /\ to_datetime to_timestamp errors_raise col = Raise (DateParseError bad).
Proof.
  intros Hin Hbad.
  induction col as [| c col IH]; [destruct Hin |].
  cbn [to_datetime]. destruct c as [v0 | t0]; cbn [convert_cell].
  - destruct (to_timestamp v0) eqn:E.
    + destruct Hin as [[= ->] | Hin]; [congruence |].
      destruct (IH Hin) as [bad [Hb1 [Hb2 Hb3]]].
      exists bad. repeat split; [now right | exact Hb2 |].
      cbn. now rewrite Hb3.
    + exists v0. repeat split; [now left | exact E].
  - destruct Hin as [Heq | Hin]; [discriminate |].
    destruct (IH Hin) as [bad [Hb1 [Hb2 Hb3]]].
    exists bad. repeat split; [now right | exact Hb2 |].
    cbn. now rewrite Hb3.
Qed.

(** The columns that leave lines 42-44 are the columns that entered them,
    without [time]. *)
Lemma index_by_time_columns (df df' : DataFrame) :
  index_by_time to_timestamp df = Ok df' ->
  columns df'
  = filter (fun c => negb (label_eqb (LStr "time") (fst c))) (columns df).
Proof.
  unfold index_by_time.
  destruct (has_column df (LStr "time")) eqn:Htime.
  - cbn. destruct (getitem df (LStr "time")) as [col | e]; [| discriminate].
    destruct (to_datetime to_timestamp errors_raise col) as [parsed | e];
      [| discriminate].
    unfold set_index. rewrite (getitem_setitem df _ parsed Htime). cbn.
    intros [= <-]. cbn [columns]. unfold setitem. rewrite Htime. cbn [columns].
    exact (setitem_then_drop (LStr "time") parsed (columns df)).
  - intros [= <-]. symmetry. now apply has_column_false.
Qed.

Lemma index_by_time_without_time (df : DataFrame) :
  has_column df (LStr "time") = false -> index_by_time to_timestamp df = Ok df.
Proof. intros H. unfold index_by_time. now rewrite H. Qed.

(** On a non-empty mapping the normalizer is the three steps of lines
    40-53 in sequence. *)
Lemma make_hourly_df_section (weather_json fields : dict) :
  dict_get weather_json "hourly" (JDict []) = JDict fields ->
  fields <> [] ->
  make_hourly_df to_timestamp frame_of_list weather_json
  = (df <- frame_of_dict fields ;;
     df <- index_by_time to_timestamp df ;;
     ret (rename_columns df)).
Proof.
  intros H Hne. unfold make_hourly_df. rewrite H.
  destruct fields; [congruence | reflexivity].
Qed.

Lemma make_hourly_df_construction_error (weather_json fields : dict)
      (e : PandasError) :
  dict_get weather_json "hourly" (JDict []) = JDict fields ->
  fields <> [] ->
  extract_index (map snd fields) = Raise e ->
  make_hourly_df to_timestamp frame_of_list weather_json = Raise e.
Proof.
  intros H Hne Hidx. rewrite (make_hourly_df_section _ _ H Hne).
  unfold frame_of_dict. cbn. now rewrite Hidx.
Qed.

(** What the columns of a returned table are, for any mapping. *)
Lemma make_hourly_df_columns (weather_json fields : dict) (df : DataFrame) :
  dict_get weather_json "hourly" (JDict []) = JDict fields ->
  make_hourly_df to_timestamp frame_of_list weather_json = Ok df ->
  exists idx,
    extract_index (map snd fields) = Ok idx
    /\ columns df
       = map (fun kv => (LStr (display (fst kv)), homogenize idx (snd kv)))
             (data_fields fields).
Proof.
  intros H Hok.
  destruct fields as [| kv0 fields0] eqn:Efields.
  - unfold make_hourly_df in Hok. rewrite H in Hok. cbn in Hok.
    injection Hok as <-. exists (RangeIndex 0). now split.
  - rewrite <- Efields in *.
    assert (Hne : fields <> []) by (rewrite Efields; discriminate).
    rewrite (make_hourly_df_section _ _ H Hne) in Hok.
    destruct (frame_of_dict fields) as [df0 | e] eqn:Hframe; [| discriminate].
    destruct (frame_of_dict_inv _ _ Hframe) as [idx [Hidx ->]].
    cbn in Hok.
    destruct (index_by_time to_timestamp _) as [df1 | e] eqn:Htime in Hok;
      [| discriminate].
    injection Hok as <-.
    exists idx. split; [exact Hidx |].
    rewrite rename_columns_all. unfold rename. cbn [columns].
    rewrite (index_by_time_columns _ _ Htime). cbn [columns].
    rewrite filter_map_swap, map_map. unfold data_fields, dict_remove.
    rewrite (filter_ext
               (fun a : string * json =>
                  negb (label_eqb (LStr "time")
                          (fst (LStr (fst a), homogenize idx (snd a)))))
               (fun kv => negb (String.eqb (fst kv) "time"))).
    + apply map_ext. intros kv. cbn [fst snd]. now rewrite rename_label_display.
    + intros kv. cbn [fst label_eqb]. now rewrite String.eqb_sym.
Qed.

End HourlyNormalizerFacts.

(** C3 as stated fails: when the [time] array holds a malformed string and
    the arrays of the section differ in length, the failure is the frame
    constructor's error of line 40, raised before any timestamp is read, and
    not a timestamp parse error. *)
Lemma make_hourly_df_malformed_time_mismatched :
  let response :=
    [ ("hourly", JDict [ ("time", JList [JStr "not-a-time"]);
                         ("temperature_2m", JList [JInt 10; JInt 11]) ]) ] in
  let normalize :=
    make_hourly_df Iso8601.to_timestamp (fun _ => Raise (TypeError "no list input")) in
  Iso8601.to_timestamp (JStr "not-a-time") = None
  /\ normalize response = Raise (ValueError "All arrays must be of the same length")
  /\ ~ (exists bad, normalize response = Raise (DateParseError bad)).
Proof.
  cbv zeta. split; [reflexivity |]. split; [reflexivity |].
  intros [bad H]. discriminate H.
Qed.

(** C3, amended. A response whose hourly section has a [time] array with a
    malformed timestamp string never yields a table: [make_hourly_df] raises.
    When every field of the section is an array as long as the [time] array,
    the error raised is the timestamp parse error, for a value of the [time]
    array that cannot be read. *)
Theorem make_hourly_df_malformed_time
        (to_timestamp : json -> option Timestamp)
        (frame_of_list : list json -> result DataFrame)
        (weather_json fields : dict) (times : list json) (s : string) :
  dict_get weather_json "hourly" (JDict []) = JDict fields ->
  dict_lookup fields "time" = Some (JList times) ->
  In (JStr s) times ->
  to_timestamp (JStr s) = None ->
  (exists e, make_hourly_df to_timestamp frame_of_list weather_json = Raise e)
  /\ (parallel_arrays (length times) fields = true ->
      exists bad,
        In bad times /\ to_timestamp bad = None
        /\ make_hourly_df to_timestamp frame_of_list weather_json
           = Raise (DateParseError bad)).
Proof.
  intros Hhourly Htime Hin Hbad.
  assert (Hne : fields <> []) by (intros ->; discriminate).
  assert (Hbuilt : forall idx,
             extract_index (map snd fields) = Ok idx ->
             exists bad,
               In bad times /\ to_timestamp bad = None
               /\ make_hourly_df to_timestamp frame_of_list weather_json
                  = Raise (DateParseError bad)).
  { intros idx Hidx.
    rewrite (make_hourly_df_section _ _ _ _ Hhourly Hne).
    unfold frame_of_dict. rewrite Hidx. cbn [bind ret Monad_result].
    unfold index_by_time.
    rewrite has_column_frame, getitem_frame, Htime. cbn [bind Monad_result homogenize].
    destruct (to_datetime_raises to_timestamp (map Obj times) (JStr s))
      as [bad [Hb1 [Hb2 Hb3]]]; [now apply in_map | exact Hbad |].
    exists bad. repeat split; [| exact Hb2 | now rewrite Hb3].
    apply in_map_iff in Hb1 as [x [[= ->] Hx]]. exact Hx. }
  split.
  - destruct (extract_index (map snd fields)) as [idx | e] eqn:Hidx.
    + destruct (Hbuilt idx eq_refl) as [bad [_ [_ H]]]. eauto.
    + exists e. now apply (make_hourly_df_construction_error _ _ _ fields).
  - intros Hpar. apply (Hbuilt (RangeIndex (length times))).
    now apply extract_index_parallel.
Qed.

(** C3, on a two-row section whose second time is not a timestamp. *)
Lemma make_hourly_df_malformed_time_witness :
  let hourly :=
    [ ("time", JList [JStr "2024-01-01T00:00"; JStr "not-a-time"]);
      ("temperature_2m", JList [JInt 10; JInt 11]) ] in
  make_hourly_df Iso8601.to_timestamp (fun _ => Raise (TypeError "no list input"))
                 [("hourly", JDict hourly)]
  = Raise (DateParseError (JStr "not-a-time")).
Proof.
  intros hourly.
  destruct (make_hourly_df_malformed_time
              Iso8601.to_timestamp (fun _ => Raise (TypeError "no list input"))
              [("hourly", JDict hourly)] hourly
              [JStr "2024-01-01T00:00"; JStr "not-a-time"] "not-a-time"
              eq_refl eq_refl (or_intror (or_introl eq_refl)) eq_refl)
    as [_ Hparse].
  destruct (Hparse eq_refl) as [bad [Hin [Hbad Hraise]]].
  rewrite Hraise.
  destruct Hin as [<- | [<- | []]]; [discriminate Hbad | reflexivity].
Defined.

(** C4. Without an [hourly] key, and with an empty [hourly] mapping, the
    result is the empty table: no rows and no columns. *)
Theorem make_hourly_df_empty
        (to_timestamp : json -> option Timestamp)
        (frame_of_list : list json -> result DataFrame) :
  make_hourly_df to_timestamp frame_of_list [] = Ok empty_frame
  /\ make_hourly_df to_timestamp frame_of_list [("hourly", JDict [])] = Ok empty_frame
  /\ shape empty_frame = (0, 0).
Proof. repeat split. Qed.

(** C5. For the section with times 2024-01-01T00:00 and 2024-01-01T01:00 and
    temperatures 10 and 11, the table has the two parsed timestamps as its
    index, in that order, and the single column [Temperature (°C)] holding
    10 and 11. *)
Theorem make_hourly_df_two_rows
        (to_timestamp : json -> option Timestamp)
        (frame_of_list : list json -> result DataFrame)
        (weather_json : dict) (t0 t1 : Timestamp) :
  dict_get weather_json "hourly" (JDict [])
  = JDict [ ("time", JList [JStr "2024-01-01T00:00"; JStr "2024-01-01T01:00"]);
            ("temperature_2m", JList [JInt 10; JInt 11]) ] ->
  to_timestamp (JStr "2024-01-01T00:00") = Some t0 ->
  to_timestamp (JStr "2024-01-01T01:00") = Some t1 ->
  make_hourly_df to_timestamp frame_of_list weather_json
  = Ok (mkDataFrame
          (LabelIndex (Some (LStr "time")) [Datetime t0; Datetime t1])
          [ (LStr "Temperature (°C)", [Obj (JInt 10); Obj (JInt 11)]) ]).
Proof.
  intros Hhourly H0 H1.
  rewrite (make_hourly_df_section _ _ _ _ Hhourly); [| discriminate].
  cbv [frame_of_dict extract_index raw_lengths dict_indexes flat_map map snd fst
       app length negb all_same_length forallb Nat.eqb andb homogenize
       bind ret Monad_result].
  unfold index_by_time.
  replace (has_column _ (LStr "time")) with true by reflexivity.
  replace (getitem _ (LStr "time"))
    with (Ok [Obj (JStr "2024-01-01T00:00"); Obj (JStr "2024-01-01T01:00")])
    by reflexivity.
  cbn [bind Monad_result to_datetime convert_cell].
  rewrite H0. cbn [bind ret Monad_result to_datetime convert_cell].
  rewrite H1. cbn [bind ret Monad_result to_datetime convert_cell].
  reflexivity.
Qed.

(** C5, with the ISO-8601 reader: the index is midnight and one o'clock of
    1 January 2024 in nanoseconds since the epoch. *)
Lemma make_hourly_df_two_rows_witness :
  make_hourly_df Iso8601.to_timestamp (fun _ => Raise (TypeError "no list input"))
    [ ("current_weather", JDict [("temperature", JFloat (b64 21 (-1)))]);
      ("hourly",
       JDict [ ("time", JList [JStr "2024-01-01T00:00"; JStr "2024-01-01T01:00"]);
               ("temperature_2m", JList [JInt 10; JInt 11]) ]) ]
  = Ok (mkDataFrame
          (LabelIndex (Some (LStr "time"))
             [Datetime (Stamp 1704067200000000000);
              Datetime (Stamp 1704070800000000000)])
          [ (LStr "Temperature (°C)", [Obj (JInt 10); Obj (JInt 11)]) ]).
Proof.
  apply make_hourly_df_two_rows; reflexivity.
Defined.

(** C6. Whenever a table is returned for a mapping, its columns are the
    fields of the section other than [time], in order, each under its display
    label: an array under a key that is not one of the four known names keeps
    its key and its values, an array under a known key is found under the
    display label, and a known field that is absent has no column (unless the
    section itself carries a field already named by that display label). *)
Theorem make_hourly_df_passes_unknown_fields
        (to_timestamp : json -> option Timestamp)
        (frame_of_list : list json -> result DataFrame)
        (weather_json fields : dict) (df : DataFrame) :
  dict_get weather_json "hourly" (JDict []) = JDict fields ->
  make_hourly_df to_timestamp frame_of_list weather_json = Ok df ->
  column_labels df = map (fun kv => LStr (display (fst kv))) (data_fields fields)
  /\ (forall k l, In (k, JList l) fields -> k <> "time" -> known_field k = false ->
                  In (LStr k, map Obj l) (columns df))
  /\ (forall k l, In (k, JList l) fields -> known_field k = true ->
                  In (LStr (display k), map Obj l) (columns df))
  /\ (forall k, known_field k = true ->
                ~ In k (map fst fields) -> ~ In (display k) (map fst fields) ->
                ~ In (LStr (display k)) (column_labels df)).
Proof.
  intros Hhourly Hok.
  destruct (make_hourly_df_columns _ _ _ _ _ Hhourly Hok) as [idx [_ Hcols]].
  assert (Harray : forall k l, In (k, JList l) fields -> k <> "time" ->
                               In (LStr (display k), map Obj l) (columns df)).
  { intros k l Hin Hk. rewrite Hcols. apply in_map_iff.
    exists (k, JList l). split; [reflexivity |].
    unfold data_fields, dict_remove. apply filter_In. split; [exact Hin |].
    cbn [fst]. apply negb_true_iff. now apply String.eqb_neq. }
  assert (Hlabels : column_labels df
                    = map (fun kv => LStr (display (fst kv))) (data_fields fields)).
  { unfold column_labels. rewrite Hcols, map_map. reflexivity. }
  split; [exact Hlabels |]. split; [| split].
  - intros k l Hin Hk Hunknown.
    rewrite <- (display_unknown k Hunknown) at 1. now apply Harray.
  - intros k l Hin Hknown. apply Harray; [exact Hin |].
    intros ->. discriminate Hknown.
  - intros k Hknown Habsent Hfree Hcol.
    rewrite Hlabels in Hcol.
    apply in_map_iff in Hcol as [[k' v] [[= Heq] Hin]]. cbn [fst] in Heq.
    apply filter_In in Hin as [Hin _].
    assert (Hkey : In k' (map fst fields)).
    { apply in_map_iff. now exists (k', v). }
    destruct (known_field k') eqn:Hk'.
    + apply (display_injective_on_known k' k Hk' Hknown) in Heq. now subst.
    + rewrite (display_unknown k' Hk') in Heq. now subst.
Qed.

(** C6, on a section with [time], a known field and the unknown field
    [foo]. *)
Lemma make_hourly_df_passes_unknown_fields_witness :
  let hourly :=
    [ ("time", JList [JStr "2024-01-01T00:00"; JStr "2024-01-01T01:00"]);
      ("temperature_2m", JList [JInt 10; JInt 11]);
      ("foo", JList [JInt 1; JInt 2]) ] in
  let df :=
    mkDataFrame
      (LabelIndex (Some (LStr "time"))
         [Datetime (Stamp 1704067200000000000);
          Datetime (Stamp 1704070800000000000)])
      [ (LStr "Temperature (°C)", [Obj (JInt 10); Obj (JInt 11)]);
        (LStr "foo", [Obj (JInt 1); Obj (JInt 2)]) ] in
  make_hourly_df Iso8601.to_timestamp (fun _ => Raise (TypeError "no list input"))
                 [("hourly", JDict hourly)] = Ok df
  /\ column_labels df = [LStr "Temperature (°C)"; LStr "foo"]
  /\ In (LStr "foo", [Obj (JInt 1); Obj (JInt 2)]) (columns df)
  /\ ~ In (LStr "Humidity (%)") (column_labels df).
Proof.
  intros hourly df.
  destruct (make_hourly_df_passes_unknown_fields
              Iso8601.to_timestamp (fun _ => Raise (TypeError "no list input"))
              [("hourly", JDict hourly)] hourly df eq_refl eq_refl)
    as [Hlabels [Hunknown [_ Habsent]]].
  split; [reflexivity |]. split; [exact Hlabels |]. split.
  - apply (Hunknown "foo" [JInt 1; JInt 2]).
    + right. right. now left.
    + discriminate.
    + reflexivity.
  - apply (Habsent "relative_humidity_2m"); [reflexivity | |];
      cbn; intros [H | [H | [H | []]]]; discriminate H.
Defined.

(** C7. Renaming is idempotent on every frame, a table that the normalizer
    returns is left as it is by a further renaming, and every display label
    is a fixed point of the rename mapping. *)
Theorem rename_columns_idempotent
        (to_timestamp : json -> option Timestamp)
        (frame_of_list : list json -> result DataFrame)
        (weather_json : dict) (df : DataFrame) :
  rename_columns (rename_columns df) = rename_columns df
  /\ match make_hourly_df to_timestamp frame_of_list weather_json with
     | Ok table => rename_columns table = table
     | Raise _ => True
     end
  /\ map (fun kv => rename_label rename_map (LStr (snd kv))) rename_map
     = map (fun kv => LStr (snd kv)) rename_map.
Proof.
  assert (Hidem : forall d, rename_columns (rename_columns d) = rename_columns d).
  { intros d. rewrite !rename_columns_all. unfold rename. cbn [index columns].
    f_equal. rewrite map_map. apply map_ext. intros c. cbn [fst snd]. f_equal.
    apply rename_label_fixed. }
  split; [apply Hidem |]. split; [| reflexivity].
  unfold make_hourly_df.
  destruct (negb (truthy (dict_get weather_json "hourly" (JDict [])))).
  - reflexivity.
  - cbn [bind ret Monad_result].
    destruct (frame_of frame_of_list _) as [df0 | e]; [| exact I].
    destruct (index_by_time to_timestamp df0) as [df1 | e]; [| exact I].
    apply Hidem.
Qed.

(** C8. Two responses with the same [hourly] entry get the same result,
    whatever else they hold; in particular dropping [current_weather] or
    [current] from a response changes nothing. *)
Theorem make_hourly_df_ignores_current
        (to_timestamp : json -> option Timestamp)
        (frame_of_list : list json -> result DataFrame)
        (response other : dict) :
  dict_lookup response "hourly" = dict_lookup other "hourly" ->
  make_hourly_df to_timestamp frame_of_list response
  = make_hourly_df to_timestamp frame_of_list other
  /\ make_hourly_df to_timestamp frame_of_list (dict_remove response "current_weather")
     = make_hourly_df to_timestamp frame_of_list response
  /\ make_hourly_df to_timestamp frame_of_list (dict_remove response "current")
     = make_hourly_df to_timestamp frame_of_list response.
Proof.
  assert (Hdep : forall a b, dict_lookup a "hourly" = dict_lookup b "hourly" ->
                             make_hourly_df to_timestamp frame_of_list a
                             = make_hourly_df to_timestamp frame_of_list b).
  { intros a b H. unfold make_hourly_df, dict_get. now rewrite H. }
  intros H. split; [now apply Hdep |].
  split; apply Hdep; now apply dict_lookup_remove_other.
Qed.

(** C8, on a response with a current-weather block and one without. *)
Lemma make_hourly_df_ignores_current_witness :
  let hourly :=
    JDict [ ("time", JList [JStr "2024-01-01T00:00"]);
            ("precipitation", JList [JInt 0]) ] in
  let response :=
    [ ("current_weather", JDict [("temperature", JInt 3)]); ("hourly", hourly) ] in
  let other := [ ("hourly", hourly) ] in
  truthy (current_block response) = true
  /\ truthy (current_block other) = false
  /\ make_hourly_df Iso8601.to_timestamp (fun _ => Raise (TypeError "no list input"))
                    response
     = make_hourly_df Iso8601.to_timestamp (fun _ => Raise (TypeError "no list input"))
                      other.
Proof.
  intros hourly response other.
  split; [reflexivity |]. split; [reflexivity |].
  apply (make_hourly_df_ignores_current
           Iso8601.to_timestamp (fun _ => Raise (TypeError "no list input"))
           response other).
  reflexivity.
Defined.

(** C9 as stated fails: a non-empty section without a [time] key whose two
    arrays differ in length gets no table. *)
Lemma make_hourly_df_without_time_mismatched :
  let fields :=
    [ ("temperature_2m", JList [JInt 10]);
      ("precipitation", JList [JInt 0; JInt 1]) ] in
  fields <> []
  /\ dict_lookup fields "time" = None
  /\ make_hourly_df Iso8601.to_timestamp (fun _ => Raise (TypeError "no list input"))
                    [("hourly", JDict fields)]
     = Raise (ValueError "All arrays must be of the same length").
Proof. cbv zeta. split; [discriminate |]. split; reflexivity. Qed.

(** C9, amended. A non-empty section with no [time] key whose fields are all
    arrays of one length [n] yields a table: the index is the positional range
    over the [n] entries, and each field gives one column of its [n] values
    under its display label. *)
Theorem make_hourly_df_without_time
        (to_timestamp : json -> option Timestamp)
        (frame_of_list : list json -> result DataFrame)
        (weather_json fields : dict) (n : nat) :
  dict_get weather_json "hourly" (JDict []) = JDict fields ->
  fields <> [] ->
  dict_lookup fields "time" = None ->
  parallel_arrays n fields = true ->
  make_hourly_df to_timestamp frame_of_list weather_json
  = Ok (mkDataFrame (RangeIndex n)
          (map (fun kv => (LStr (display (fst kv)), array_cells (snd kv))) fields))
  /\ Forall (fun kv => length (array_cells (snd kv)) = n) fields.
Proof.
  intros Hhourly Hne Htime Hpar.
  split.
  - rewrite (make_hourly_df_section _ _ _ _ Hhourly Hne).
    unfold frame_of_dict.
    rewrite (extract_index_parallel n fields Hne Hpar). cbn [bind ret Monad_result].
    rewrite index_by_time_without_time
      by (rewrite has_column_frame; now rewrite Htime).
    cbn [bind ret Monad_result].
    rewrite rename_columns_all. unfold rename. cbn [index columns].
    rewrite map_map. do 2 f_equal. apply map_ext_in. intros kv Hin. cbn [fst snd].
    rewrite rename_label_display. f_equal.
    pose proof (homogenize_parallel n fields (RangeIndex n) Hpar) as Hall.
    rewrite Forall_forall in Hall.
    destruct (Hall kv Hin) as [l [Hl [_ Hcells]]].
    rewrite Hcells, Hl. reflexivity.
  - pose proof (homogenize_parallel n fields (RangeIndex n) Hpar) as Hall.
    rewrite Forall_forall in *. intros kv Hin.
    destruct (Hall kv Hin) as [l [Hl [Hlen _]]].
    rewrite Hl. cbn. now rewrite length_map.
Qed.

(** C9, on a section with one known and one unknown field and no [time]. *)
Lemma make_hourly_df_without_time_witness :
  make_hourly_df Iso8601.to_timestamp (fun _ => Raise (TypeError "no list input"))
    [ ("hourly", JDict [ ("wind_speed_10m", JList [JInt 5; JInt 7; JInt 6]);
                         ("foo", JList [JInt 1; JInt 2; JInt 3]) ]) ]
  = Ok (mkDataFrame (RangeIndex 3)
          [ (LStr "Wind speed (km/h)", [Obj (JInt 5); Obj (JInt 7); Obj (JInt 6)]);
            (LStr "foo", [Obj (JInt 1); Obj (JInt 2); Obj (JInt 3)]) ]).
Proof.
  apply (make_hourly_df_without_time
           Iso8601.to_timestamp (fun _ => Raise (TypeError "no list input"))
           [ ("hourly", JDict [ ("wind_speed_10m", JList [JInt 5; JInt 7; JInt 6]);
                                ("foo", JList [JInt 1; JInt 2; JInt 3]) ]) ]
           [ ("wind_speed_10m", JList [JInt 5; JInt 7; JInt 6]);
             ("foo", JList [JInt 1; JInt 2; JInt 3]) ] 3);
    [reflexivity | discriminate | reflexivity | reflexivity].
Defined.

(** C10. A section holding two arrays of different lengths gets no table:
    the frame constructor raises, before any column is looked at. *)
Theorem make_hourly_df_mismatched_lengths
        (to_timestamp : json -> option Timestamp)
        (frame_of_list : list json -> result DataFrame)
        (weather_json fields : dict) (k1 k2 : string) (l1 l2 : list json) :
  dict_get weather_json "hourly" (JDict []) = JDict fields ->
  In (k1, JList l1) fields ->
  In (k2, JList l2) fields ->
  length l1 <> length l2 ->
  frame_of frame_of_list (JDict fields)
  = Raise (ValueError "All arrays must be of the same length")
  /\ make_hourly_df to_timestamp frame_of_list weather_json
     = Raise (ValueError "All arrays must be of the same length").
Proof.
  intros Hhourly H1 H2 Hlen.
  assert (Hne : fields <> []) by (intros ->; destruct H1).
  assert (Hidx : extract_index (map snd fields)
                 = Raise (ValueError "All arrays must be of the same length")).
  { pose proof (raw_lengths_in fields k1 l1 H1) as Hr1.
    pose proof (raw_lengths_in fields k2 l2 H2) as Hr2.
    unfold extract_index.
    destruct (map snd fields) as [| v vals] eqn:Evals.
    - destruct fields; [congruence | discriminate].
    - destruct (raw_lengths (v :: vals)) as [| n lengths]; [destruct Hr1 |].
      destruct (all_same_length n lengths) eqn:Hsame; [| reflexivity].
      exfalso. apply Hlen. now apply (all_same_length_in n lengths). }
  split.
  - cbn [frame_of]. unfold frame_of_dict. now rewrite Hidx.
  - now apply (make_hourly_df_construction_error _ _ _ fields).
Qed.

(** C10, on a section with one time and two temperatures. *)
Lemma make_hourly_df_mismatched_lengths_witness :
  make_hourly_df Iso8601.to_timestamp (fun _ => Raise (TypeError "no list input"))
    [ ("hourly", JDict [ ("time", JList [JStr "2024-01-01T00:00"]);
                         ("temperature_2m", JList [JInt 10; JInt 11]) ]) ]
  = Raise (ValueError "All arrays must be of the same length").
Proof.
  apply (make_hourly_df_mismatched_lengths
           Iso8601.to_timestamp (fun _ => Raise (TypeError "no list input"))
           [ ("hourly", JDict [ ("time", JList [JStr "2024-01-01T00:00"]);
                                ("temperature_2m", JList [JInt 10; JInt 11]) ]) ]
           [ ("time", JList [JStr "2024-01-01T00:00"]);
             ("temperature_2m", JList [JInt 10; JInt 11]) ]
           "time" "temperature_2m"
           [JStr "2024-01-01T00:00"] [JInt 10; JInt 11]).
  - reflexivity.
  - now left.
  - right. now left.
  - discriminate.
Defined.

(** * Further properties of the script *)

(** ** The client beyond the claims *)





(** ** The normalizer beyond the claims *)

(** X4. An [hourly] entry that is false in Python (null, false, zero, an
    empty string, list or mapping) gives the empty table, like a missing
    entry. *)
Theorem make_hourly_df_falsy_hourly
        (to_timestamp : json -> option Timestamp)
        (frame_of_list : list json -> result DataFrame)
        (weather_json : dict) (hourly : json) :
  dict_lookup weather_json "hourly" = Some hourly ->
  In hourly [ JNull; JBool false; JInt 0; JFloat (S754_zero false);
              JFloat (S754_zero true); JStr EmptyString; JList []; JDict [] ] ->
  make_hourly_df to_timestamp frame_of_list weather_json = Ok empty_frame.
Proof.
  intros Hlookup Hin. unfold make_hourly_df, dict_get. rewrite Hlookup.
  repeat (destruct Hin as [<- | Hin]; [reflexivity |]). destruct Hin.
Qed.

Lemma make_hourly_df_falsy_hourly_witness :
  make_hourly_df Iso8601.to_timestamp (fun _ => Raise (TypeError "no list input"))
                 [("latitude", JFloat (b64 73 (-1))); ("hourly", JNull)]
  = Ok empty_frame.
Proof.
  apply (make_hourly_df_falsy_hourly _ _ _ JNull); [reflexivity | now left].
Defined.

(** X5. An [hourly] entry that is a true scalar (a non-empty string, a
    non-zero number, [true]) is refused by the frame constructor. *)
Theorem make_hourly_df_scalar_hourly
        (to_timestamp : json -> option Timestamp)
        (frame_of_list : list json -> result DataFrame)
        (weather_json : dict) (hourly : json) :
  dict_lookup weather_json "hourly" = Some hourly ->
  is_scalar hourly = true ->
  truthy hourly = true ->
  make_hourly_df to_timestamp frame_of_list weather_json
  = Raise (ValueError "DataFrame constructor not properly called!").
Proof.
  intros Hlookup Hscalar Htruthy. unfold make_hourly_df, dict_get.
  rewrite Hlookup, Htruthy. cbn [negb].
  destruct hourly; try discriminate; reflexivity.
Qed.

Lemma make_hourly_df_scalar_hourly_witness :
  make_hourly_df Iso8601.to_timestamp (fun _ => Raise (TypeError "no list input"))
                 [("hourly", JStr "unavailable")]
  = Raise (ValueError "DataFrame constructor not properly called!").
Proof.
  apply (make_hourly_df_scalar_hourly _ _ _ (JStr "unavailable")); reflexivity.
Defined.

Lemma scalars_have_no_index (fields : dict) :
  forallb (fun kv => is_scalar (snd kv)) fields = true ->
  raw_lengths (map snd fields) = [] /\ dict_indexes (map snd fields) = [].
Proof.
  unfold raw_lengths, dict_indexes.
  induction fields as [| [k v] fields IH]; cbn; [now split |].
  intros H. apply andb_true_iff in H as [Hv Hrest].
  destruct (IH Hrest) as [IH1 IH2].
  destruct v; cbn in Hv; try discriminate; cbn; now rewrite ?IH1, ?IH2.
Qed.

(** X6. A non-empty section whose fields are all scalars, with no array
    among them, is refused: there is nothing to take the rows from. *)
Theorem make_hourly_df_all_scalars
        (to_timestamp : json -> option Timestamp)
        (frame_of_list : list json -> result DataFrame)
        (weather_json fields : dict) :
  dict_get weather_json "hourly" (JDict []) = JDict fields ->
  fields <> [] ->
  forallb (fun kv => is_scalar (snd kv)) fields = true ->
  make_hourly_df to_timestamp frame_of_list weather_json
  = Raise (ValueError "If using all scalar values, you must pass an index").
Proof.
  intros Hhourly Hne Hscalars.
  apply (make_hourly_df_construction_error _ _ _ fields); [exact Hhourly | exact Hne |].
  destruct (scalars_have_no_index fields Hscalars) as [Hraw Hidx].
  unfold extract_index. rewrite Hraw, Hidx.
  destruct fields; [congruence | reflexivity].
Qed.

Lemma make_hourly_df_all_scalars_witness :
  make_hourly_df Iso8601.to_timestamp (fun _ => Raise (TypeError "no list input"))
                 [("hourly", JDict [("temperature_2m", JInt 10); ("time", JNull)])]
  = Raise (ValueError "If using all scalar values, you must pass an index").
Proof.
  apply (make_hourly_df_all_scalars _ _ _
           [("temperature_2m", JInt 10); ("time", JNull)]);
    [reflexivity | discriminate | reflexivity].
Defined.

Lemma label_eqb_true (a b : label) : label_eqb a b = true -> a = b.
Proof.
  destruct a, b; cbn; intros H; try discriminate.
  - apply String.eqb_eq in H. now subst.
  - apply Z.eqb_eq in H. now subst.
Qed.

Section TimeIndexFacts.

Variable to_timestamp : json -> option Timestamp.
Variable frame_of_list : list json -> result DataFrame.


Lemma to_datetime_length (errors : errors_mode) (col parsed : list cell) :
  to_datetime to_timestamp errors col = Ok parsed -> length parsed = length col.
Proof.
  revert parsed.
  induction col as [| c col IH]; intros parsed; cbn.
  - now intros [= <-].
  - destruct (convert_cell to_timestamp errors c) as [t | e]; [| discriminate].
    cbn. destruct (to_datetime to_timestamp errors col) as [ts | e]; [| discriminate].
    cbn. intros [= <-]. cbn. now rewrite (IH ts eq_refl).
Qed.


(** Lines 42-44 on a frame that has a readable [time] column. *)
Lemma index_by_time_with_time (df : DataFrame) (col parsed : list cell) :
  has_column df (LStr "time") = true ->
  getitem df (LStr "time") = Ok col ->
  to_datetime to_timestamp errors_raise col = Ok parsed ->
  index_by_time to_timestamp df
  = Ok (mkDataFrame (LabelIndex (Some (LStr "time")) parsed)
          (filter (fun c => negb (label_eqb (LStr "time") (fst c))) (columns df))).
Proof.
  intros Hhas Hget Hparse. unfold index_by_time.
  rewrite Hhas, Hget. cbn [bind Monad_result]. rewrite Hparse. cbn [bind Monad_result].
  unfold set_index. rewrite (getitem_setitem df _ parsed Hhas). cbn [bind ret Monad_result].
  do 2 f_equal. unfold setitem. rewrite Hhas. cbn [columns].
  exact (setitem_then_drop (LStr "time") parsed (columns df)).
Qed.


End TimeIndexFacts.






(** ** Shape of the returned table *)

Lemma raw_lengths_of_list (vals : list json) (l : list json) :
  In (JList l) vals -> In (length l) (raw_lengths vals).
Proof.
  intros Hin. unfold raw_lengths. apply in_flat_map.
  exists (JList l). split; [exact Hin | now left].
Qed.

Lemma dict_indexes_of_dict (vals : list json) (d : list (string * json)) :
  In (JDict d) vals -> dict_indexes vals <> [].
Proof.
  intros Hin Hnone.
  assert (H : In (map fst d) (dict_indexes vals)).
  { unfold dict_indexes. apply in_flat_map. exists (JDict d). split; [exact Hin | now left]. }
  rewrite Hnone in H. destruct H.
Qed.

Lemma index_labels_length (idx : Index) :
  length (index_labels idx) = index_length idx.
Proof.
  destruct idx as [n | name labels]; cbn; [| reflexivity].
  now rewrite length_map, length_seq.
Qed.

(** Once the constructor has an index, every column it builds has one cell
    per index entry. *)
Lemma extract_index_column_length (vals : list json) (idx : Index) (v : json) :
  extract_index vals = Ok idx ->
  In v vals ->
  length (homogenize idx v) = index_length idx.
Proof.
  intros Hidx Hin.
  destruct v as [| b | n | x | s | l | d];
    try (cbn; apply repeat_length).
  - cbn [homogenize]. rewrite length_map.
    pose proof (raw_lengths_of_list vals l Hin) as Hraw.
    unfold extract_index in Hidx.
    destruct vals as [| v0 vals0] eqn:Evals; [destruct Hin |].
    rewrite <- Evals in *.
    destruct (raw_lengths vals) as [| n lengths] eqn:Eraw; [destruct Hraw |].
    destruct (all_same_length n lengths) eqn:Hsame; [| discriminate].
    cbn [negb] in Hidx.
    destruct (dict_indexes vals); [| discriminate].
    injection Hidx as <-. cbn.
    apply (all_same_length_in n lengths); [exact Hsame | exact Hraw | now left].
  - cbn [homogenize]. rewrite length_map. apply index_labels_length.
Qed.

Lemma frame_of_dict_rectangular (fields : dict) (df : DataFrame) :
  frame_of_dict fields = Ok df -> Views.rectangular df.
Proof.
  intros Hframe.
  destruct (frame_of_dict_inv _ _ Hframe) as [idx [Hidx ->]].
  unfold Views.rectangular. cbn [index columns].
  apply Forall_forall. intros c Hin.
  apply in_map_iff in Hin as [kv [<- Hkv]]. cbn [snd].
  apply (extract_index_column_length (map snd fields)); [exact Hidx |].
  now apply in_map.
Qed.

Lemma getitem_in (df : DataFrame) (l : label) (col : list cell) :
  getitem df l = Ok col -> exists c, In c (columns df) /\ snd c = col.
Proof.
  unfold getitem.
  destruct (find (fun c => label_eqb l (fst c)) (columns df)) as [c |] eqn:E;
    [| discriminate].
  intros [= <-]. exists c. split; [| reflexivity].
  now apply find_some in E as [Hin _].
Qed.

Lemma index_by_time_rectangular
      (to_timestamp : json -> option Timestamp) (df df' : DataFrame) :
  Views.rectangular df ->
  index_by_time to_timestamp df = Ok df' ->
  Views.rectangular df'.
Proof.
  unfold Views.rectangular. intros Hrect Hok.
  destruct (has_column df (LStr "time")) eqn:Htime.
  - destruct (getitem df (LStr "time")) as [col | e] eqn:Hget.
    2: { unfold index_by_time in Hok. rewrite Htime, Hget in Hok. discriminate Hok. }
    destruct (to_datetime to_timestamp errors_raise col) as [parsed | e] eqn:Hparse.
    2: { unfold index_by_time in Hok. rewrite Htime, Hget in Hok.
         cbn [bind Monad_result] in Hok. rewrite Hparse in Hok. discriminate Hok. }
    rewrite (index_by_time_with_time to_timestamp df col parsed Htime Hget Hparse)
      in Hok.
    injection Hok as <-. cbn [index columns index_length].
    rewrite (to_datetime_length _ _ _ _ Hparse).
    destruct (getitem_in _ _ _ Hget) as [c [Hc <-]].
    rewrite Forall_forall in *. intros c' Hin.
    apply filter_In in Hin as [Hin _].
    now rewrite (Hrect c' Hin), (Hrect c Hc).
  - unfold index_by_time in Hok. rewrite Htime in Hok. now injection Hok as <-.
Qed.

Lemma rename_rectangular (df : DataFrame) :
  Views.rectangular df -> Views.rectangular (rename_columns df).
Proof.
  unfold Views.rectangular. rewrite rename_columns_all. unfold rename.
  cbn [index columns]. intros H. apply Forall_map.
  eapply Forall_impl; [| exact H]. now intros c Hc.
Qed.

(** X9. Every table returned for a mapping is rectangular: each column has
    exactly one cell per entry of the index, with or without a [time] field. *)
Theorem make_hourly_df_rectangular
        (to_timestamp : json -> option Timestamp)
        (frame_of_list : list json -> result DataFrame)
        (weather_json fields : dict) (df : DataFrame) :
  dict_get weather_json "hourly" (JDict []) = JDict fields ->
  make_hourly_df to_timestamp frame_of_list weather_json = Ok df ->
  Views.rectangular df.
Proof.
  intros Hhourly Hok.
  destruct fields as [| kv0 fields0] eqn:Efields.
  - unfold make_hourly_df in Hok. rewrite Hhourly in Hok. cbn in Hok.
    injection Hok as <-. constructor.
  - rewrite <- Efields in *.
    assert (Hne : fields <> []) by (rewrite Efields; discriminate).
    rewrite (make_hourly_df_section _ _ _ _ Hhourly Hne) in Hok.
    destruct (frame_of_dict fields) as [df0 | e] eqn:Hframe; [| discriminate].
    cbn [bind Monad_result] in Hok.
    destruct (index_by_time to_timestamp df0) as [df1 | e] eqn:Htime;
      [| discriminate].
    injection Hok as <-.
    apply rename_rectangular.
    apply (index_by_time_rectangular to_timestamp df0); [| exact Htime].
    now apply (frame_of_dict_rectangular fields).
Qed.

Lemma make_hourly_df_rectangular_witness :
  Views.rectangular
    (mkDataFrame
       (LabelIndex (Some (LStr "time"))
          [Datetime (Stamp 1704067200000000000);
           Datetime (Stamp 1704070800000000000)])
       [ (LStr "Temperature (°C)", [Obj (JInt 10); Obj (JInt 11)]);
         (LStr "station", [Obj (JStr "A1"); Obj (JStr "A1")]) ]).
Proof.
  apply (make_hourly_df_rectangular
           Iso8601.to_timestamp (fun _ => Raise (TypeError "no list input"))
           [ ("hourly",
              JDict [ ("time", JList [JStr "2024-01-01T00:00"; JStr "2024-01-01T01:00"]);
                      ("temperature_2m", JList [JInt 10; JInt 11]);
                      ("station", JStr "A1") ]) ]
           [ ("time", JList [JStr "2024-01-01T00:00"; JStr "2024-01-01T01:00"]);
             ("temperature_2m", JList [JInt 10; JInt 11]);
             ("station", JStr "A1") ]);
    reflexivity.
Defined.

Lemma rename_label_not_time (l : label) :
  l <> LStr "time" -> rename_label rename_map l <> LStr "time".
Proof.
  intros Hl. destruct l as [s | n]; [| discriminate].
  unfold rename_label.
  destruct (mapping_lookup rename_map s) as [v |] eqn:E; [| exact Hl].
  apply mapping_lookup_in in E. unfold rename_map in E. cbn in E.
  destruct E as [E | [E | [E | [E | []]]]]; injection E as <- <-; discriminate.
Qed.

(** X10. Whatever the response, a returned table has no column labelled
    [time]: a [time] column becomes the index, and no rename produces the
    label. *)
Theorem make_hourly_df_has_no_time_column
        (to_timestamp : json -> option Timestamp)
        (frame_of_list : list json -> result DataFrame)
        (weather_json : dict) (df : DataFrame) :
  make_hourly_df to_timestamp frame_of_list weather_json = Ok df ->
  has_column df (LStr "time") = false.
Proof.
  unfold make_hourly_df.
  destruct (negb (truthy (dict_get weather_json "hourly" (JDict [])))).
  - now intros [= <-].
  - cbn [bind ret Monad_result].
    destruct (frame_of frame_of_list _) as [df0 | e]; [| discriminate].
    destruct (index_by_time to_timestamp df0) as [df1 | e] eqn:Htime;
      [| discriminate].
    intros [= <-].
    rewrite rename_columns_all.
    unfold has_column, column_labels, rename. cbn [columns].
    rewrite (index_by_time_columns _ _ _ Htime), map_map.
    destruct (existsb _ _) eqn:E; [| reflexivity].
    apply existsb_exists in E as [l [Hin Heq]].
    apply in_map_iff in Hin as [c [<- Hc]]. cbn [fst] in Heq.
    apply filter_In in Hc as [_ Hc]. apply negb_true_iff in Hc.
    apply label_eqb_true in Heq. symmetry in Heq.
    apply rename_label_not_time in Heq; [destruct Heq |].
    intros Hlabel. rewrite Hlabel in Hc. cbn in Hc.
    now rewrite String.eqb_refl in Hc.
Qed.

Lemma make_hourly_df_has_no_time_column_witness :
  has_column
    (mkDataFrame
       (LabelIndex (Some (LStr "time")) [Datetime (Stamp 1704067200000000000)])
       [ (LStr "Humidity (%)", [Obj (JInt 81)]) ])
    (LStr "time") = false.
Proof.
  apply (make_hourly_df_has_no_time_column
           Iso8601.to_timestamp (fun _ => Raise (TypeError "no list input"))
           [ ("hourly",
              JDict [ ("time", JList [JStr "2024-01-01T00:00"]);
                      ("relative_humidity_2m", JList [JInt 81]) ]) ]).
  reflexivity.
Defined.

Lemma known_field_in_rename_map (k : string) :
  known_field k = true -> In (k, display k) rename_map.
Proof.
  intros H.
  destruct (known_field_cases k H) as [-> | [-> | [-> | ->]]]; vm_compute; tauto.
Qed.

Lemma NoDup_keys_filter (p : string * json -> bool) (fields : dict) :
  NoDup (map fst fields) -> NoDup (map fst (filter p fields)).
Proof.
  induction fields as [| kv fields IH]; cbn; [intros _; constructor |].
  intros H. inversion H as [| k ks Hnotin Hrest]; subst.
  destruct (p kv); cbn; [| now apply IH].
  constructor; [| now apply IH].
  intros Hin. apply Hnotin.
  apply in_map_iff in Hin as [kv' [Heq Hin]]. apply filter_In in Hin as [Hin _].
  apply in_map_iff. now exists kv'.
Qed.

(** X11. When no field of the section is already named by one of the four
    display labels, the column labels of the returned table are pairwise
    distinct, so that a display label selects one column. *)
Theorem make_hourly_df_distinct_labels
        (to_timestamp : json -> option Timestamp)
        (frame_of_list : list json -> result DataFrame)
        (weather_json fields : dict) (df : DataFrame) :
  dict_get weather_json "hourly" (JDict []) = JDict fields ->
  NoDup (map fst fields) ->
  (forall kv, In kv rename_map -> ~ In (snd kv) (map fst fields)) ->
  make_hourly_df to_timestamp frame_of_list weather_json = Ok df ->
  NoDup (column_labels df).
Proof.
  intros Hhourly Hkeys Hfree Hok.
  destruct (make_hourly_df_columns _ _ _ _ _ Hhourly Hok) as [idx [_ Hcols]].
  unfold column_labels. rewrite Hcols, map_map. cbn [fst].
  rewrite <- (map_map fst (fun k => LStr (display k))).
  apply NoDup_map_NoDup_ForallPairs;
    [| unfold data_fields, dict_remove; now apply NoDup_keys_filter].
  intros a b Ha Hb [= Heq].
  assert (Hfield : forall k, In k (map fst (data_fields fields)) ->
                             In k (map fst fields)).
  { intros k Hk. apply in_map_iff in Hk as [kv [<- Hkv]].
    apply filter_In in Hkv as [Hkv _]. now apply in_map. }
  apply Hfield in Ha, Hb.
  destruct (known_field a) eqn:Hka, (known_field b) eqn:Hkb.
  - now apply display_injective_on_known.
  - rewrite (display_unknown b Hkb) in Heq. exfalso.
    apply (Hfree (a, display a)); [now apply known_field_in_rename_map |].
    cbn [snd]. now rewrite Heq.
  - rewrite (display_unknown a Hka) in Heq. exfalso.
    apply (Hfree (b, display b)); [now apply known_field_in_rename_map |].
    cbn [snd]. now rewrite <- Heq.
  - now rewrite (display_unknown a Hka), (display_unknown b Hkb) in Heq.
Qed.

Lemma make_hourly_df_distinct_labels_witness :
  NoDup [LStr "Temperature (°C)"; LStr "Wind speed (km/h)"; LStr "foo"].
Proof.
  apply (make_hourly_df_distinct_labels
           Iso8601.to_timestamp (fun _ => Raise (TypeError "no list input"))
           [ ("hourly",
              JDict [ ("temperature_2m", JList [JInt 10]);
                      ("wind_speed_10m", JList [JInt 4]);
                      ("foo", JList [JInt 1]) ]) ]
           [ ("temperature_2m", JList [JInt 10]);
             ("wind_speed_10m", JList [JInt 4]);
             ("foo", JList [JInt 1]) ]
           (mkDataFrame (RangeIndex 1)
              [ (LStr "Temperature (°C)", [Obj (JInt 10)]);
                (LStr "Wind speed (km/h)", [Obj (JInt 4)]);
                (LStr "foo", [Obj (JInt 1)]) ])
           eq_refl).
  - repeat constructor; cbn; intuition discriminate.
  - intros kv Hkv. cbn in Hkv.
    destruct Hkv as [<- | [<- | [<- | [<- | []]]]]; cbn;
      intros [H | [H | [H | []]]]; discriminate H.
  - reflexivity.
Defined.


(** ** The page *)

#[local] Arguments fetch_weather : simpl never.
#[local] Arguments make_hourly_df : simpl never.
#[local] Arguments render_current : simpl never.
#[local] Arguments render_hourly : simpl never.
#[local] Arguments render_weather : simpl never.
#[local] Arguments render_point : simpl never.
#[local] Arguments Views.head : simpl never.
#[local] Arguments Views.select : simpl never.
#[local] Arguments Views.empty : simpl never.
#[local] Arguments has_column : simpl never.
#[local] Arguments String.append : simpl never.

Section DashboardFacts.

Variable net : Requests.Net.
Variable loads : string -> option json.
Variable to_timestamp : json -> option Timestamp.
Variable frame_of_list : list json -> result DataFrame.
Variable format_4f : spec_float -> string.
Variable py_str : json -> string.
Variable exc_str : Requests.RequestException -> string.


Lemma render_current_falsy (current : json) (s : Session) :
  truthy current = false ->
  render_current py_str current s
  = (inr tt,
     mkSession
       (ui s ++ [Warning "현재 날씨 정보(current_weather)를 가져오지 못했습니다."])
       (wire s)).
Proof. intros H. unfold render_current. now rewrite H. Qed.

Lemma render_current_cards (fields : dict) (s : Session) :
  fields <> [] ->
  exists calls,
    render_current py_str (JDict fields) s
    = (inr tt, mkSession (ui s ++ calls) (wire s))
    /\ In (Metric "Temperature (°C)"
             (if negb (is_none (dict_get fields "temperature" JNull))
              then py_str (dict_get fields "temperature" JNull) ++ " °C"
              else "-")) calls
    /\ existsb is_chart_or_table calls = false.
Proof.
  intros Hne. unfold render_current, within, st.
  destruct fields as [| kv fields]; [congruence |]. cbn [truthy].
  destruct (negb (is_none (dict_get (kv :: fields) "weathercode" JNull)));
    cbn [bind ret Monad_App ui wire]; rewrite <- !app_assoc; cbn [app];
    eexists; (split; [reflexivity |]); (split; [| reflexivity]);
    right; now left.
Qed.

Lemma chart_tab_page (df_plot : DataFrame) (column name : string) (s : Session) :
  chart_tab df_plot column name s
  = (inr tt,
     mkSession
       (ui s ++ (if has_column df_plot (LStr column)
                 then [Enter (tab name);
                       LineChart (Views.select df_plot (LStr column));
                       Leave (tab name)]
                 else []))
       (wire s)).
Proof.
  unfold chart_tab, within, st.
  destruct (has_column df_plot (LStr column)); cbn [bind ret Monad_App ui wire].
  - now rewrite <- !app_assoc.
  - rewrite app_nil_r. now destruct s.
Qed.

Lemma charts_of_tab (df_plot : DataFrame) (column name : string) :
  filter is_chart_or_table
    (if has_column df_plot (LStr column)
     then [Enter (tab name); LineChart (Views.select df_plot (LStr column));
           Leave (tab name)]
     else [])
  = if has_column df_plot (LStr column)
    then [LineChart (Views.select df_plot (LStr column))]
    else [].
Proof. now destruct (has_column df_plot (LStr column)). Qed.

(** The hourly block: the notice alone for an empty table; otherwise the
    tabs, one chart per display label that is a column of the first 48 rows,
    and the first 72 rows as the raw table. *)
Lemma render_hourly_page (df : DataFrame) (s : Session) :
  exists calls,
    render_hourly df s = (inr tt, mkSession (ui s ++ calls) (wire s))
    /\ existsb is_current_card calls = false
    /\ (Views.empty df = true -> calls = [Info "시간별 예보 데이터가 없습니다."])
    /\ (Views.empty df = false ->
        filter is_chart_or_table calls
        = Tabs ["Temperature"; "Humidity"; "Precipitation"; "Wind speed"]
          :: flat_map
               (fun column =>
                  if has_column (Views.head 48 df) (LStr column)
                  then [LineChart (Views.select (Views.head 48 df) (LStr column))]
                  else [])
               ["Temperature (°C)"; "Humidity (%)"; "Precipitation (mm)";
                "Wind speed (km/h)"]
          ++ [Dataframe (Views.head 72 df)]).
Proof.
  unfold render_hourly.
  destruct (Views.empty df).
  - eexists. split; [reflexivity |]. split; [reflexivity |].
    split; [reflexivity | discriminate].
  - cbn [bind ret Monad_App]. unfold st at 1. cbn [ui wire].
    rewrite !chart_tab_page. cbn [ui wire]. unfold st. cbn [ui wire].
    rewrite <- !app_assoc. eexists. split; [reflexivity |].
    split; [| split; [discriminate | intros _]].
    + rewrite !existsb_app.
      destruct (has_column _ (LStr "Temperature (°C)")),
               (has_column _ (LStr "Humidity (%)")),
               (has_column _ (LStr "Precipitation (mm)")),
               (has_column _ (LStr "Wind speed (km/h)")); reflexivity.
    + rewrite !filter_app, !charts_of_tab. cbn [filter is_chart_or_table flat_map app].
      rewrite app_nil_r, <- !app_assoc. reflexivity.
Qed.

Lemma render_weather_steps (response : dict) (s : Session) :
  render_weather to_timestamp frame_of_list py_str (JDict response) s
  = match render_current py_str (current_block response) s with
    | (inl e, s1) => (inl e, s1)
    | (inr _, s1) =>
        let s2 :=
          mkSession
            (ui s1 ++ [Markdown
               "### ⏱ 시간별 예보 (Temperature / Humidity / Precipitation / Wind)"])
            (wire s1) in
        match make_hourly_df to_timestamp frame_of_list response with
        | Raise e => (inl (PandasFailure e), s2)
        | Ok df => render_hourly df s2
        end
    end.
Proof.
  unfold render_weather, of_pandas, st, app_raise. cbn [bind ret Monad_App].
  destruct (render_current py_str (current_block response) s) as [[e | u] s1];
    [reflexivity |].
  cbn [ui wire].
  now destruct (make_hourly_df to_timestamp frame_of_list response).
Qed.

End DashboardFacts.

Section DashboardRuns.

Variable net : Requests.Net.
Variable loads : string -> option json.
Variable to_timestamp : json -> option Timestamp.
Variable frame_of_list : list json -> result DataFrame.
Variable format_4f : spec_float -> string.
Variable py_str : json -> string.
Variable exc_str : Requests.RequestException -> string.

(** Lines 115-130: the coordinates are shown, one call of the client is made
    inside the spinner, and its exception, if any, ends the run with an error
    box. *)
Lemma render_point_steps (point : LatLng) (s : Session) :
  exists shown,
    existsb shows_weather shown = false
    /\ render_point net loads to_timestamp frame_of_list format_4f py_str exc_str
                    point s
       = match fetch_weather net loads (lat point) (lng point) (wire s) with
         | (inl e, sent) =>
             (inr tt,
              mkSession
                (ui s ++ shown
                 ++ [ErrorBox ("Open-Meteo API 요청 중 오류가 발생했습니다: "
                               ++ exc_str e)])
                sent)
         | (inr weather_json, sent) =>
             render_weather to_timestamp frame_of_list py_str weather_json
                            (mkSession (ui s ++ shown) sent)
         end.
Proof.
  exists [ Markdown ("**선택한 위치:**  " ++ newline
                     ++ "- 위도 (Latitude): `" ++ format_4f (lat point) ++ "`  "
                     ++ newline
                     ++ "- 경도 (Longitude): `" ++ format_4f (lng point) ++ "`");
           Enter (spinner "날씨 데이터를 불러오는 중입니다...");
           Leave (spinner "날씨 데이터를 불러오는 중입니다...") ].
  split; [reflexivity |].
  unfold render_point, within, attempt, st. cbn [bind ret Monad_App ui wire].
  destruct (fetch_weather net loads (lat point) (lng point) (wire s))
    as [[e | weather_json] sent]; cbn [bind ret Monad_App ui wire];
    now rewrite <- !app_assoc.
Qed.

(** Lines 58-113: the page up to the data column, then either the notice or
    the weather of the clicked point. *)
Lemma run_main_steps (map_data : option MapData) (sent : list Requests.Request) :
  exists page,
    existsb shows_weather page = false
    /\ run_main net loads to_timestamp frame_of_list format_4f py_str exc_str
                map_data sent
       = match map_data with
         | Some (mkMapData (Some point)) =>
             match render_point net loads to_timestamp frame_of_list format_4f
                                py_str exc_str point (mkSession page sent) with
             | (r, s) => (r, mkSession (ui s ++ [Leave col_data]) (wire s))
             end
         | _ =>
             (inr tt,
              mkSession
                (page ++ [Info "왼쪽 지도를 클릭해서 위치를 먼저 선택해 주세요.";
                          Leave col_data])
                sent)
         end.
Proof.
  exists (firstn 11
            (ui (snd (run_main net loads to_timestamp frame_of_list format_4f
                               py_str exc_str None sent)))).
  split; [reflexivity |].
  destruct map_data as [[[point |]] |]; reflexivity.
Qed.

End DashboardRuns.

Section DashboardOutcomes.

Variable net : Requests.Net.
Variable loads : string -> option json.
Variable to_timestamp : json -> option Timestamp.
Variable frame_of_list : list json -> result DataFrame.
Variable format_4f : spec_float -> string.
Variable py_str : json -> string.
Variable exc_str : Requests.RequestException -> string.

Lemma render_current_completes (current : json) (s : Session) :
  truthy current = false \/ (exists fields, current = JDict fields) ->
  exists calls,
    render_current py_str current s = (inr tt, mkSession (ui s ++ calls) (wire s))
    /\ existsb is_chart_or_table calls = false.
Proof.
  intros [Hfalsy | [fields ->]].
  - rewrite (render_current_falsy py_str current s Hfalsy). now eexists.
  - destruct fields as [| kv fields].
    + rewrite (render_current_falsy py_str (JDict []) s eq_refl). now eexists.
    + destruct (render_current_cards py_str (kv :: fields) s)
        as [calls [Hrun [_ Hnone]]]; [discriminate |].
      now exists calls.
Qed.


(** The run after a click that was answered with a mapping: the current
    block, the heading, the normalizer, the hourly block. *)
Lemma run_main_answered (point : LatLng) (sent : list Requests.Request)
      (response : dict) :
  fst (fetch_weather net loads (lat point) (lng point) sent) = inr (JDict response) ->
  exists before,
    existsb shows_weather before = false
    /\ run_main net loads to_timestamp frame_of_list format_4f py_str exc_str
                (Some (mkMapData (Some point))) sent
       = match render_current py_str (current_block response)
                 (mkSession before
                    (sent ++ [weather_request (lat point) (lng point)])) with
         | (inl e, s1) => (inl e, mkSession (ui s1 ++ [Leave col_data]) (wire s1))
         | (inr _, s1) =>
             let s2 :=
               mkSession
                 (ui s1 ++ [Markdown
                    "### ⏱ 시간별 예보 (Temperature / Humidity / Precipitation / Wind)"])
                 (wire s1) in
             match make_hourly_df to_timestamp frame_of_list response with
             | Raise e =>
                 (inl (PandasFailure e),
                  mkSession (ui s2 ++ [Leave col_data]) (wire s2))
             | Ok df =>
                 match render_hourly df s2 with
                 | (r, s) => (r, mkSession (ui s ++ [Leave col_data]) (wire s))
                 end
             end
         end.
Proof.
  intros Hfetch.
  destruct (run_main_steps net loads to_timestamp frame_of_list format_4f py_str
              exc_str (Some (mkMapData (Some point))) sent) as [page [Hpage Hrun]].
  destruct (render_point_steps net loads to_timestamp frame_of_list format_4f py_str
              exc_str point (mkSession page sent)) as [shown [Hshown Hpoint]].
  cbn [ui wire] in Hpoint.
  pose proof (fetch_weather_wire net loads (lat point) (lng point) sent) as Hwire.
  destruct (fetch_weather net loads (lat point) (lng point) sent)
    as [[e | weather_json] sent'] eqn:Hf; cbn [fst snd] in Hfetch, Hwire;
    [discriminate |].
  injection Hfetch as ->. subst sent'.
  rewrite render_weather_steps in Hpoint.
  exists (page ++ shown).
  split; [rewrite existsb_app, Hpage, Hshown; reflexivity |].
  rewrite Hrun, Hpoint.
  destruct (render_current py_str (current_block response) _) as [[e | u] s1];
    [reflexivity |].
  cbn zeta. now destruct (make_hourly_df to_timestamp frame_of_list response).
Qed.

Lemma no_weather_no_charts (calls : list call) :
  existsb shows_weather calls = false -> existsb is_chart_or_table calls = false.
Proof.
  induction calls as [| c calls IH]; cbn; [reflexivity |].
  intros H. apply orb_false_iff in H as [Hc Hrest].
  rewrite (IH Hrest), orb_false_r. now destruct c.
Qed.


Lemma no_charts_filter (calls : list call) :
  existsb is_chart_or_table calls = false -> filter is_chart_or_table calls = [].
Proof.
  induction calls as [| c calls IH]; cbn; [reflexivity |].
  intros H. apply orb_false_iff in H as [Hc Hrest]. now rewrite Hc, (IH Hrest).
Qed.

End DashboardOutcomes.

Lemma has_column_head (k : nat) (df : DataFrame) (l : label) :
  has_column (Views.head k df) l = has_column df l.
Proof.
  unfold has_column, column_labels, Views.head. cbn [columns].
  now rewrite map_map.
Qed.

Lemma head_rows (k : nat) (df : DataFrame) :
  index_length (index (Views.head k df)) = Nat.min k (index_length (index df)).
Proof.
  unfold Views.head. cbn [index].
  destruct (index df) as [n | name labels]; cbn; [reflexivity | apply length_firstn].
Qed.

(** X12. Until a point has been clicked the run ends normally with the
    notice to pick a location: nothing goes on the wire and nothing of the
    weather is shown. *)
Theorem main_without_click
        (net : Requests.Net) (loads : string -> option json)
        (to_timestamp : json -> option Timestamp)
        (frame_of_list : list json -> result DataFrame)
        (format_4f : spec_float -> string) (py_str : json -> string)
        (exc_str : Requests.RequestException -> string)
        (map_data : option MapData) (sent : list Requests.Request) :
  map_data = None \/ map_data = Some (mkMapData None) ->
  let run := run_main net loads to_timestamp frame_of_list format_4f py_str exc_str
                      map_data sent in
  fst run = inr tt
  /\ wire (snd run) = sent
  /\ In (Info "왼쪽 지도를 클릭해서 위치를 먼저 선택해 주세요.") (ui (snd run))
  /\ existsb shows_weather (ui (snd run)) = false.
Proof.
  intros Hclick run. subst run.
  destruct (run_main_steps net loads to_timestamp frame_of_list format_4f py_str
              exc_str map_data sent) as [page [Hpage Hrun]].
  rewrite Hrun.
  destruct Hclick as [-> | ->]; cbn [fst snd ui wire];
    (split; [reflexivity |]); (split; [reflexivity |]); split;
    try (apply in_or_app; right; now left);
    rewrite existsb_app, Hpage; reflexivity.
Qed.

Lemma main_without_click_witness :
  let run :=
    run_main (fun _ _ => Requests.Failed Requests.TimedOut) (fun _ => None)
             Iso8601.to_timestamp (fun _ => Raise (TypeError "no list input"))
             (fun _ => "36.5000") (fun _ => "3") (fun _ => "timed out")
             (Some (mkMapData None)) [] in
  fst run = inr tt /\ wire (snd run) = [].
Proof.
  intros run.
  destruct (main_without_click
              (fun _ _ => Requests.Failed Requests.TimedOut) (fun _ => None)
              Iso8601.to_timestamp (fun _ => Raise (TypeError "no list input"))
              (fun _ => "36.5000") (fun _ => "3") (fun _ => "timed out")
              (Some (mkMapData None)) [] (or_intror eq_refl))
    as [Hend [Hwire _]].
  split; [exact Hend | exact Hwire].
Defined.




(** X15. An exception of the normalizer is not caught: when the response is
    a mapping whose current block renders and [make_hourly_df] raises, the
    run ends with that exception, and no tab, chart or table has been
    drawn. *)
Theorem main_normalizer_error_uncaught
        (net : Requests.Net) (loads : string -> option json)
        (to_timestamp : json -> option Timestamp)
        (frame_of_list : list json -> result DataFrame)
        (format_4f : spec_float -> string) (py_str : json -> string)
        (exc_str : Requests.RequestException -> string)
        (point : LatLng) (sent : list Requests.Request)
        (response : dict) (e : PandasError) :
  fst (fetch_weather net loads (lat point) (lng point) sent) = inr (JDict response) ->
  truthy (current_block response) = false
  \/ (exists fields, current_block response = JDict fields) ->
  make_hourly_df to_timestamp frame_of_list response = Raise e ->
  let run := run_main net loads to_timestamp frame_of_list format_4f py_str exc_str
                      (Some (mkMapData (Some point))) sent in
  fst run = inl (PandasFailure e)
  /\ existsb is_chart_or_table (ui (snd run)) = false.
Proof.
  intros Hfetch Hcurrent Hraise run. subst run.
  destruct (run_main_answered net loads to_timestamp frame_of_list format_4f py_str
              exc_str point sent response Hfetch) as [before [Hbefore Hrun]].
  destruct (render_current_completes py_str (current_block response)
              (mkSession before (sent ++ [weather_request (lat point) (lng point)]))
              Hcurrent) as [calls [Hcur Hnone]].
  rewrite Hrun, Hcur, Hraise. cbn [fst snd ui wire].
  split; [reflexivity |].
  now rewrite !existsb_app, (no_weather_no_charts before Hbefore), Hnone.
Qed.

Lemma main_normalizer_error_uncaught_witness :
  let response :=
    [ ("hourly", JDict [ ("time", JList [JStr "not-a-time"]);
                         ("temperature_2m", JList [JInt 10]) ]) ] in
  fst (run_main (fun _ _ => Requests.Replied (Requests.mkResponse 200 "{}"))
                (fun _ => Some (JDict response))
                Iso8601.to_timestamp (fun _ => Raise (TypeError "no list input"))
                (fun _ => "36.5000") (fun _ => "3") (fun _ => "timed out")
                (Some (mkMapData (Some (mkLatLng (b64 73 (-1)) (b64 511 (-2)))))) [])
  = inl (PandasFailure (DateParseError (JStr "not-a-time"))).
Proof.
  intros response.
  exact (proj1 (main_normalizer_error_uncaught
                  (fun _ _ => Requests.Replied (Requests.mkResponse 200 "{}"))
                  (fun _ => Some (JDict response))
                  Iso8601.to_timestamp (fun _ => Raise (TypeError "no list input"))
                  (fun _ => "36.5000") (fun _ => "3") (fun _ => "timed out")
                  (mkLatLng (b64 73 (-1)) (b64 511 (-2))) [] response
                  (DateParseError (JStr "not-a-time"))
                  eq_refl (or_introl eq_refl) eq_refl)).
Defined.





Lemma run_main_charts
      (net : Requests.Net) (loads : string -> option json)
      (to_timestamp : json -> option Timestamp)
      (frame_of_list : list json -> result DataFrame)
      (format_4f : spec_float -> string) (py_str : json -> string)
      (exc_str : Requests.RequestException -> string)
      (point : LatLng) (sent : list Requests.Request)
      (response : dict) (df : DataFrame) :
  fst (fetch_weather net loads (lat point) (lng point) sent) = inr (JDict response) ->
  truthy (current_block response) = false
  \/ (exists fields, current_block response = JDict fields) ->
  make_hourly_df to_timestamp frame_of_list response = Ok df ->
  Views.empty df = false ->
  filter is_chart_or_table
    (ui (snd (run_main net loads to_timestamp frame_of_list format_4f py_str exc_str
                       (Some (mkMapData (Some point))) sent)))
  = Tabs ["Temperature"; "Humidity"; "Precipitation"; "Wind speed"]
    :: flat_map
         (fun column =>
            if has_column (Views.head 48 df) (LStr column)
            then [LineChart (Views.select (Views.head 48 df) (LStr column))]
            else [])
         ["Temperature (°C)"; "Humidity (%)"; "Precipitation (mm)";
          "Wind speed (km/h)"]
    ++ [Dataframe (Views.head 72 df)].
Proof.
  intros Hfetch Hcurrent Hok Hrows.
  destruct (run_main_answered net loads to_timestamp frame_of_list format_4f py_str
              exc_str point sent response Hfetch) as [before [Hbefore Hrun]].
  destruct (render_current_completes py_str (current_block response)
              (mkSession before (sent ++ [weather_request (lat point) (lng point)]))
              Hcurrent) as [cards [Hcur Hnone]].
  rewrite Hrun, Hcur, Hok. cbn zeta. cbn [ui wire].
  destruct (render_hourly_page df
              (mkSession
                 ((before ++ cards)
                  ++ [Markdown
                        "### ⏱ 시간별 예보 (Temperature / Humidity / Precipitation / Wind)"])
                 (sent ++ [weather_request (lat point) (lng point)])))
    as [calls [Hhourly [_ [_ Hcharts]]]].
  rewrite Hhourly. cbn [fst snd ui wire].
  rewrite !filter_app, (Hcharts Hrows).
  rewrite (no_charts_filter before (no_weather_no_charts before Hbefore)).
  rewrite (no_charts_filter cards Hnone).
  cbn [filter is_chart_or_table app]. now rewrite app_nil_r.
Qed.

(** X18. After a click answered with a mapping whose hourly table is not
    empty, the hourly block shows the four tabs, then one line chart for each
    display label that is a column of the table, in the order temperature,
    humidity, precipitation, wind speed, each drawn from the first 48 rows,
    then the first 72 rows as the raw table; nothing else on the page is a
    chart or a table. *)
Theorem main_charts_and_table
        (net : Requests.Net) (loads : string -> option json)
        (to_timestamp : json -> option Timestamp)
        (frame_of_list : list json -> result DataFrame)
        (format_4f : spec_float -> string) (py_str : json -> string)
        (exc_str : Requests.RequestException -> string)
        (point : LatLng) (sent : list Requests.Request)
        (response : dict) (df : DataFrame) :
  fst (fetch_weather net loads (lat point) (lng point) sent) = inr (JDict response) ->
  truthy (current_block response) = false
  \/ (exists fields, current_block response = JDict fields) ->
  make_hourly_df to_timestamp frame_of_list response = Ok df ->
  Views.empty df = false ->
  filter is_chart_or_table
    (ui (snd (run_main net loads to_timestamp frame_of_list format_4f py_str exc_str
                       (Some (mkMapData (Some point))) sent)))
  = Tabs ["Temperature"; "Humidity"; "Precipitation"; "Wind speed"]
    :: flat_map
         (fun column =>
            if has_column df (LStr column)
            then [LineChart (Views.select (Views.head 48 df) (LStr column))]
            else [])
         ["Temperature (°C)"; "Humidity (%)"; "Precipitation (mm)";
          "Wind speed (km/h)"]
    ++ [Dataframe (Views.head 72 df)].
Proof.
  intros Hfetch Hcurrent Hok Hrows.
  rewrite (run_main_charts net loads to_timestamp frame_of_list format_4f py_str
             exc_str point sent response df Hfetch Hcurrent Hok Hrows).
  cbn [flat_map app]. now rewrite !has_column_head.
Qed.

Lemma main_charts_and_table_witness :
  let response :=
    [ ("current_weather", JDict [("temperature", JInt 3)]);
      ("hourly", JDict [ ("time", JList [JStr "2024-01-01T00:00"]);
                         ("precipitation", JList [JInt 0]) ]) ] in
  let df :=
    mkDataFrame
      (LabelIndex (Some (LStr "time")) [Datetime (Stamp 1704067200000000000)])
      [(LStr "Precipitation (mm)", [Obj (JInt 0)])] in
  filter is_chart_or_table
    (ui (snd (run_main (fun _ _ => Requests.Replied (Requests.mkResponse 200 "{}"))
                       (fun _ => Some (JDict response))
                       Iso8601.to_timestamp
                       (fun _ => Raise (TypeError "no list input"))
                       (fun _ => "36.5000") (fun _ => "3") (fun _ => "timed out")
                       (Some (mkMapData (Some (mkLatLng (b64 73 (-1)) (b64 511 (-2))))))
                       [])))
  = [ Tabs ["Temperature"; "Humidity"; "Precipitation"; "Wind speed"];
      LineChart df;
      Dataframe df ].
Proof.
  intros response df.
  exact (main_charts_and_table
           (fun _ _ => Requests.Replied (Requests.mkResponse 200 "{}"))
           (fun _ => Some (JDict response))
           Iso8601.to_timestamp (fun _ => Raise (TypeError "no list input"))
           (fun _ => "36.5000") (fun _ => "3") (fun _ => "timed out")
           (mkLatLng (b64 73 (-1)) (b64 511 (-2))) [] response df
           eq_refl (or_intror (ex_intro _ [("temperature", JInt 3)] eq_refl))
           eq_refl eq_refl).
Defined.

(** X19. Every chart of the page is drawn from at most 48 rows of the hourly
    table and the raw table shows at most 72: the number of rows is the
    smaller of the limit and the length of the table. *)
Theorem main_row_limits
        (net : Requests.Net) (loads : string -> option json)
        (to_timestamp : json -> option Timestamp)
        (frame_of_list : list json -> result DataFrame)
        (format_4f : spec_float -> string) (py_str : json -> string)
        (exc_str : Requests.RequestException -> string)
        (point : LatLng) (sent : list Requests.Request)
        (response : dict) (df shown : DataFrame) :
  fst (fetch_weather net loads (lat point) (lng point) sent) = inr (JDict response) ->
  truthy (current_block response) = false
  \/ (exists fields, current_block response = JDict fields) ->
  make_hourly_df to_timestamp frame_of_list response = Ok df ->
  Views.empty df = false ->
  let page :=
    ui (snd (run_main net loads to_timestamp frame_of_list format_4f py_str exc_str
                      (Some (mkMapData (Some point))) sent)) in
  (In (LineChart shown) page ->
   index_length (index shown) = Nat.min 48 (index_length (index df)))
  /\ (In (Dataframe shown) page ->
      index_length (index shown) = Nat.min 72 (index_length (index df))).
Proof.
  intros Hfetch Hcurrent Hok Hrows page. subst page.
  pose proof (run_main_charts net loads to_timestamp frame_of_list format_4f py_str
                exc_str point sent response df Hfetch Hcurrent Hok Hrows) as Hcharts.
  split; intros Hin.
  - assert (Hf : In (LineChart shown)
                    (filter is_chart_or_table
                       (ui (snd (run_main net loads to_timestamp frame_of_list
                                          format_4f py_str exc_str
                                          (Some (mkMapData (Some point))) sent)))))
      by (apply filter_In; now split).
    rewrite Hcharts in Hf. destruct Hf as [Hf | Hf]; [discriminate |].
    apply in_app_or in Hf as [Hf | [Hf | []]]; [| discriminate].
    apply in_flat_map in Hf as [column [_ Hf]].
    destruct (has_column (Views.head 48 df) (LStr column)); [| destruct Hf].
    destruct Hf as [[= <-] | []]. apply head_rows.
  - assert (Hf : In (Dataframe shown)
                    (filter is_chart_or_table
                       (ui (snd (run_main net loads to_timestamp frame_of_list
                                          format_4f py_str exc_str
                                          (Some (mkMapData (Some point))) sent)))))
      by (apply filter_In; now split).
    rewrite Hcharts in Hf. destruct Hf as [Hf | Hf]; [discriminate |].
    apply in_app_or in Hf as [Hf | [[= <-] | []]]; [| apply head_rows].
    apply in_flat_map in Hf as [column [_ Hf]].
    destruct (has_column (Views.head 48 df) (LStr column)); [| destruct Hf].
    destruct Hf as [Hf | []]. discriminate Hf.
Qed.

Lemma main_row_limits_witness :
  let response :=
    [ ("hourly", JDict [ ("time", JList [JStr "2024-01-01T00:00"]);
                         ("precipitation", JList [JInt 0]) ]) ] in
  let df :=
    mkDataFrame
      (LabelIndex (Some (LStr "time")) [Datetime (Stamp 1704067200000000000)])
      [(LStr "Precipitation (mm)", [Obj (JInt 0)])] in
  index_length (index (Views.head 72 df)) = Nat.min 72 1.
Proof.
  intros response df.
  apply (proj2 (main_row_limits
                  (fun _ _ => Requests.Replied (Requests.mkResponse 200 "{}"))
                  (fun _ => Some (JDict response))
                  Iso8601.to_timestamp (fun _ => Raise (TypeError "no list input"))
                  (fun _ => "36.5000") (fun _ => "3") (fun _ => "timed out")
                  (mkLatLng (b64 73 (-1)) (b64 511 (-2))) [] response df
                  (Views.head 72 df)
                  eq_refl (or_introl eq_refl) eq_refl eq_refl)).
  vm_compute. repeat (first [left; reflexivity | right]).
Defined.


